(** * mcp-google-sheets: a shallow embedding of the tool handlers, the URL
    parser and the legacy REST client, with the properties stated about them.

    Conventions of the embedding.
    - A JavaScript string is a [string]: a sequence of code units below 256.
    - A JavaScript number that the code uses as an integer (a column index,
      a row count, a sheet id, a clock reading in milliseconds) is a [Z].
    - A value that can be [undefined] or [null] is an [option].
    - A call to the outside world (the Sheets client, the token endpoint) is
      answered by an explicit environment and recorded in an explicit log. *)

From Stdlib Require Import ZArith List String Ascii Bool Lia.
From Stdlib Require Import Numbers.DecimalString.
From Equations Require Import Equations.
Import ListNotations.

Local Open Scope string_scope.
Local Open Scope Z_scope.

(* ===================================================================== *)
(** ** Platform primitives on strings and numbers *)
(* ===================================================================== *)

Module JS.

(** [String.fromCharCode(n)] for a code unit [n]. *)
Definition fromCharCode (n : Z) : ascii := ascii_of_N (Z.to_N n).

(** [s.charCodeAt(i)] of a single code unit. *)
Definition charCode (c : ascii) : Z := Z.of_N (N_of_ascii c).

(** [String(n)] / template interpolation of an integer-valued number. *)
Definition numberToString (n : Z) : string :=
  NilZero.string_of_int (Z.to_int n).

(** Truthiness of a string: every string but the empty one. *)
Definition truthy (s : string) : bool :=
  match s with EmptyString => false | String _ _ => true end.

(** Truthiness of an optional string argument ([undefined] is falsy). *)
Definition truthyOpt (o : option string) : bool :=
  match o with Some s => truthy s | None => false end.

(** [a || b] on optional strings. *)
Definition orElse (a b : option string) : option string :=
  if truthyOpt a then a else b.

(** [s.startsWith(p)]. *)
Fixpoint startsWith (p s : string) : bool :=
  match p, s with
  | EmptyString, _ => true
  | String a p', String b s' => Ascii.eqb a b && startsWith p' s'
  | String _ _, EmptyString => false
  end.

(** [s.includes(p)]: [p] occurs somewhere in [s]. *)
Fixpoint includes (p s : string) : bool :=
  startsWith p s ||
  match s with
  | EmptyString => false
  | String _ s' => includes p s'
  end.

(** The suffix of [s] after a prefix of the length of [p]. *)
Fixpoint dropPrefix (p s : string) : string :=
  match p, s with
  | String _ p', String _ s' => dropPrefix p' s'
  | _, _ => s
  end.

(** Lower-casing of one code unit below 256: the capital letters A-Z and the
    Latin-1 capitals U+00C0-U+00DE (the multiplication sign U+00D7 apart) move
    32 places up; every other code unit is its own lower case. *)
Definition lowerChar (c : ascii) : ascii :=
  let n := charCode c in
  if ((65 <=? n) && (n <=? 90))
     || ((192 <=? n) && (n <=? 222) && negb (n =? 215))
  then fromCharCode (n + 32) else c.

(** [s.toLowerCase()]. *)
Fixpoint toLowerCase (s : string) : string :=
  match s with
  | EmptyString => EmptyString
  | String c s' => String (lowerChar c) (toLowerCase s')
  end.

(** [arr.slice(0, e)] for an integer [e]: a negative end counts from the
    end of the array. *)
Definition slice0 {A : Type} (e : Z) (l : list A) : list A :=
  if e <? 0 then firstn (Z.to_nat (Z.of_nat (List.length l) + e)) l
  else firstn (Z.to_nat e) l.

End JS.

(* ===================================================================== *)
(** ** Platform model: regular expressions, URL and URLSearchParams *)
(* ===================================================================== *)

Module Platform.

(** The longest prefix of [s] whose code units satisfy [cls]: a greedy
    [cls+] (or [cls*]) of a regular expression. *)
Fixpoint takeWhile (cls : ascii -> bool) (s : string) : string :=
  match s with
  | EmptyString => EmptyString
  | String c s' => if cls c then String c (takeWhile cls s') else EmptyString
  end.

(** [s.match(/<prefix>(<cls>+)/)], capture group 1: the leftmost position
    where the literal [prefix] is followed by at least one [cls] code unit,
    and the greedy run of [cls] code units found there. *)
Fixpoint matchAfter (prefix : string) (cls : ascii -> bool) (s : string)
  : option string :=
  let here :=
    if JS.startsWith prefix s
    then takeWhile cls (JS.dropPrefix prefix s) else EmptyString in
  match here with
  | String _ _ => Some here
  | EmptyString =>
      match s with
      | EmptyString => None
      | String _ s' => matchAfter prefix cls s'
      end
  end.

Definition isDigit (c : ascii) : bool :=
  (48 <=? JS.charCode c) && (JS.charCode c <=? 57).

Definition isLetter (c : ascii) : bool :=
  ((65 <=? JS.charCode c) && (JS.charCode c <=? 90))
  || ((97 <=? JS.charCode c) && (JS.charCode c <=? 122)).

(** The part of [s] before the first [c] (all of [s] without one). *)
Fixpoint before (c : ascii) (s : string) : string :=
  match s with
  | EmptyString => EmptyString
  | String a s' => if Ascii.eqb a c then EmptyString else String a (before c s')
  end.

(** The part of [s] after the first [c], when there is one. *)
Fixpoint after (c : ascii) (s : string) : option string :=
  match s with
  | EmptyString => None
  | String a s' => if Ascii.eqb a c then Some s' else after c s'
  end.

(** [s.split(c)]. *)
Fixpoint split (c : ascii) (s : string) : list string :=
  match s with
  | EmptyString => [EmptyString]
  | String a s' =>
      if Ascii.eqb a c then EmptyString :: split c s'
      else match split c s' with
           | [] => [String a EmptyString]
           | x :: xs => String a x :: xs
           end
  end.

Fixpoint forallb_string (p : ascii -> bool) (s : string) : bool :=
  match s with
  | EmptyString => true
  | String c s' => p c && forallb_string p s'
  end.

Definition hexValue (c : ascii) : option Z :=
  let n := JS.charCode c in
  if isDigit c then Some (n - 48)
  else if (65 <=? n) && (n <=? 70) then Some (n - 55)
  else if (97 <=? n) && (n <=? 102) then Some (n - 87)
  else None.

(** Percent-decoding followed by UTF-8 decoding, as URLSearchParams does
    to names and values. Escapes of bytes below 128 decode to themselves; an
    escape of a byte from 128 on starts a multi-byte sequence, whose decoding
    leaves the code units below 256: [None] marks it as not modelled. A [%]
    that starts no escape is kept as it is. *)
Fixpoint percentDecode (s : string) : option string :=
  match s with
  | EmptyString => Some EmptyString
  | String c rest =>
      let keep := option_map (String c) (percentDecode rest) in
      if Ascii.eqb c "%"%char then
        match rest with
        | String h (String l rest') =>
            match hexValue h, hexValue l with
            | Some hv, Some lv =>
                if hv <? 8
                then option_map (String (JS.fromCharCode (hv * 16 + lv)))
                       (percentDecode rest')
                else None
            | _, _ => keep
            end
        | _ => keep
        end
      else keep
  end.

(** [+] stands for a space in a form-encoded query. *)
Fixpoint plusToSpace (s : string) : string :=
  match s with
  | EmptyString => EmptyString
  | String c s' =>
      String (if Ascii.eqb c "+"%char then " "%char else c) (plusToSpace s')
  end.

(** One [name=value] piece of a query, decoded. *)
Definition decodePair (piece : string) : option (string * string) :=
  let name := before "="%char piece in
  let value := match after "="%char piece with Some v => v | None => EmptyString end in
  match percentDecode (plusToSpace name), percentDecode (plusToSpace value) with
  | Some n, Some v => Some (n, v)
  | _, _ => None
  end.

(** The list of pairs of a query string, empty pieces skipped; [None] when
    some piece is not modelled. *)
Fixpoint decodePairs (pieces : list string) : option (list (string * string)) :=
  match pieces with
  | [] => Some []
  | p :: ps =>
      match p with
      | EmptyString => decodePairs ps
      | String _ _ =>
          match decodePair p, decodePairs ps with
          | Some kv, Some kvs => Some (kv :: kvs)
          | _, _ => None
          end
      end
  end.

(** [searchParams.get(name)]: the value of the first pair called [name]. *)
Fixpoint firstValue (name : string) (kvs : list (string * string))
  : option string :=
  match kvs with
  | [] => None
  | (k, v) :: kvs' => if String.eqb k name then Some v else firstValue name kvs'
  end.

(** Printable ASCII, the code units a pasted URL is made of. *)
Definition isPrintable (c : ascii) : bool :=
  (33 <=? JS.charCode c) && (JS.charCode c <=? 126).

Definition isHostChar (c : ascii) : bool :=
  isLetter c || isDigit c || Ascii.eqb c "-"%char || Ascii.eqb c "."%char.

(** Whether the last non-empty label of a host starts with a letter (a last
    label that reads as a number sends the host to the IPv4 parser). *)
Fixpoint lastLabelStartsWithLetter (atStart ok : bool) (h : string) : bool :=
  match h with
  | EmptyString => ok
  | String c h' =>
      if Ascii.eqb c "."%char then lastLabelStartsWithLetter true ok h'
      else if atStart then lastLabelStartsWithLetter false (isLetter c) h'
      else lastLabelStartsWithLetter false ok h'
  end.

(** The authority of an http(s) URL: what follows the scheme's two slashes,
    up to the first [/], [?] or [#]. *)
Definition authority (url : string) : string :=
  let rest :=
    if JS.startsWith "https://" url then JS.dropPrefix "https://" url
    else JS.dropPrefix "http://" url in
  before "/"%char (before "?"%char (before "#"%char rest)).

(** The URLs on which the model answers for [new URL(url)]: printable ASCII,
    an http(s) scheme, and a plain domain name as the authority (letters,
    digits, dots and single hyphens, no port, no credentials, the last label
    not a number). The constructor accepts every one of them. *)
Definition modelled (url : string) : bool :=
  forallb_string isPrintable url
  && (JS.startsWith "http://" url || JS.startsWith "https://" url)
  && JS.truthy (authority url)
  && forallb_string isHostChar (authority url)
  && negb (JS.includes "--" (authority url))
  && lastLabelStartsWithLetter true false (authority url).

(** The query of a URL: what lies between the first [?] and the first [#]
    after it; a [?] inside the fragment starts no query. *)
Definition queryOf (url : string) : string :=
  match after "?"%char (before "#"%char url) with
  | Some q => q
  | None => EmptyString
  end.

(** The answer of [new URL(url).searchParams.get(name)]. *)
Inductive searchParam : Type :=
| ParamValue (v : string)   (* a pair called [name] exists; its first value *)
| ParamNull                 (* no pair called [name]: [null] *)
| ParamNotModelled.         (* outside the URLs the model answers for *)

Definition searchParamsGet (url name : string) : searchParam :=
  if modelled url then
    match decodePairs (split "&"%char (queryOf url)) with
    | Some kvs =>
        match firstValue name kvs with
        | Some v => ParamValue v
        | None => ParamNull
        end
    | None => ParamNotModelled
    end
  else ParamNotModelled.

End Platform.

(* ===================================================================== *)
(** ** utils/url-parser.js *)
(* ===================================================================== *)

(** The object the parser returns. *)
Record parsedInput : Type := mkParsed {
  spreadsheetId : string;
  gid : option string
}.

(** What a call does: return a value, throw one of the errors of the
    source, or leave the URLs the platform model answers for. *)
Inductive outcome (A : Type) : Type :=
| Returns (a : A)
| Throws (message : string)
| NotModelled.
Arguments Returns {A} a.
Arguments Throws {A} message.
Arguments NotModelled {A}.

(** The class [[a-zA-Z0-9-_]] of the spreadsheet-id pattern. *)
Definition isIdChar (c : ascii) : bool :=
  Platform.isLetter c || Platform.isDigit c
  || Ascii.eqb c "-"%char || Ascii.eqb c "_"%char.

Definition invalidUrlMessage : string :=
  "Invalid Google Sheets URL. Expected format: https://docs.google.com/spreadsheets/d/{SPREADSHEET_ID}/edit".

(** The fallback on the fragment: [url.includes('#gid=')] and then
    [url.match(/#gid=(\d+)/)], both on the whole URL text. *)
Definition hashGid (url : string) : option string :=
  if JS.includes "#gid=" url
  then Platform.matchAfter "#gid=" Platform.isDigit url
  else None.

Definition parseGoogleSheetsUrl (url : string) : outcome parsedInput :=
  match Platform.matchAfter "/spreadsheets/d/" isIdChar url with
  | None => Throws invalidUrlMessage
  | Some id =>
      match Platform.searchParamsGet url "gid" with
      | Platform.ParamNotModelled => NotModelled
      | Platform.ParamValue gidParam =>
          (* [if (gidParam) gid = gidParam], then [if (!gid && ...)] *)
          if JS.truthy gidParam
          then Returns (mkParsed id (Some gidParam))
          else Returns (mkParsed id (hashGid url))
      | Platform.ParamNull => Returns (mkParsed id (hashGid url))
      end
  end.

Definition parseSpreadsheetInput (input : option string) : outcome parsedInput :=
  if negb (JS.truthyOpt input) then Throws "Spreadsheet ID or URL is required"
  else
    match input with
    | None => Throws "Spreadsheet ID or URL is required"
    | Some s =>
        if JS.startsWith "http://" s || JS.startsWith "https://" s
        then parseGoogleSheetsUrl s
        else Returns (mkParsed s None)
    end.

(* ===================================================================== *)
(** ** tools/sheet.tools.js and tools/search.tools.js: columnIndexToLetter *)
(* ===================================================================== *)

(** The [while (index >= 0)] loop, with [letter] as the accumulator. The
    recursion is on the loop variable, so the definition is total only
    because the loop terminates. *)
Equations? columnIndexToLetter_loop (index : Z) (letter : string) : string
  by wf (Z.to_nat (index + 1)) lt :=
  columnIndexToLetter_loop index letter with Z_lt_dec index 0 => {
    | left _ => letter;
    | right _ =>
        columnIndexToLetter_loop (index / 26 - 1)
          (String (JS.fromCharCode (Z.rem index 26 + 65)) letter) }.
Proof.
  assert (index / 26 <= index) by (apply Z.div_le_upper_bound; lia).
  lia.
Qed.

Definition columnIndexToLetter (index : Z) : string :=
  columnIndexToLetter_loop index "".





(* ===================================================================== *)
(** ** client/sheets-client.js: the client the tools call *)
(* ===================================================================== *)

(** [arr.forEach((x, i) => ...)] with the variables the callback writes to
    threaded as a state. *)
Fixpoint forEachFrom {A S : Type} (f : S -> A -> Z -> S) (i : Z) (l : list A)
  (s : S) : S :=
  match l with
  | [] => s
  | x :: l' => forEachFrom f (i + 1) l' (f s x i)
  end.

Definition forEach {A S : Type} (f : S -> A -> Z -> S) (l : list A) (s : S) : S :=
  forEachFrom f 0 l s.

(** A cell of a fetched grid: string, number, boolean or null. *)
Inductive cell : Type :=
| CellString (s : string)
| CellNumber (n : Z)
| CellBool (b : bool)
| CellNull.

Record ValueRange : Type := mkValueRange {
  range : option string;
  values : option (list (list cell))
}.

Record GridProperties : Type := mkGridProperties {
  rowCount : option Z;
  columnCount : option Z;
  frozenRowCount : option Z;
  frozenColumnCount : option Z
}.

Record SheetProperties : Type := mkSheetProperties {
  sheetId : option Z;
  title : option string;
  index : option Z;
  sheetType : option string;
  gridProperties : option GridProperties;
  hidden : option bool
}.

Record Sheet : Type := mkSheet { properties : option SheetProperties }.

Record Spreadsheet : Type := mkSpreadsheet { sheets : option (list Sheet) }.

(** The two Google endpoints behind the client methods the tools use. A
    request that Google refuses makes the googleapis call throw. *)
Record GoogleApi : Type := mkGoogleApi {
  spreadsheets_get : string -> bool -> outcome Spreadsheet;
  values_get : string -> string -> outcome ValueRange
}.

(** A request sent to Google. *)
Inductive apiCall : Type :=
| CallSpreadsheetsGet (spreadsheetId : string) (includeGridData : bool)
| CallValuesGet (spreadsheetId : string) (range : string).

(** A computation that may call Google: it reads the API, appends what it
    sends to the log of requests, and returns, throws or leaves the model. *)
Definition Client (A : Type) : Type :=
  GoogleApi -> list apiCall -> outcome A * list apiCall.

Definition ret {A : Type} (a : A) : Client A :=
  fun _ log => (Returns a, log).

Definition lift {A : Type} (o : outcome A) : Client A :=
  fun _ log => (o, log).

Definition bind {A B : Type} (m : Client A) (k : A -> Client B) : Client B :=
  fun api log =>
    match m api log with
    | (Returns a, log') => k a api log'
    | (Throws e, log') => (Throws e, log')
    | (NotModelled, log') => (NotModelled, log')
    end.

Notation "x <- m ;; k" := (bind m (fun x => k))
  (at level 61, m at next level, right associativity).

Definition getSpreadsheet (id : string) (includeGridData : bool)
  : Client Spreadsheet :=
  fun api log =>
    (spreadsheets_get api id includeGridData,
     (log ++ [CallSpreadsheetsGet id includeGridData])%list).

Definition getValues (id rng : string) : Client ValueRange :=
  fun api log => (values_get api id rng, (log ++ [CallValuesGet id rng])%list).

(** [s.properties?.sheetId?.toString()]. *)
Definition sheetIdString (s : Sheet) : option string :=
  match properties s with
  | None => None
  | Some p => option_map JS.numberToString (sheetId p)
  end.

(** The predicate given to [find]: the two strings are strictly equal. *)
Definition sheetHasGid (g : string) (s : Sheet) : bool :=
  match sheetIdString s with
  | Some t => String.eqb t g
  | None => false
  end.

(** [getSheetByGid]: [null] is [None]. *)
Definition getSheetByGid (id g : string) : Client (option Sheet) :=
  spreadsheet <- getSpreadsheet id false ;;
  ret (match sheets spreadsheet with
       | None => None
       | Some l => List.find (sheetHasGid g) l
       end).

(* ===================================================================== *)
(** ** tools/sheet.tools.js and tools/search.tools.js: the tool handlers *)
(* ===================================================================== *)

Record gidArgs : Type := mkGidArgs {
  gidArg_spreadsheetId : option string;
  gidArg_url : option string;
  gidArg_gid : option string
}.

Record previewArgs : Type := mkPreviewArgs {
  previewArg_spreadsheetId : option string;
  previewArg_sheetName : string;
  previewArg_numRows : option Z
}.

Record searchArgs : Type := mkSearchArgs {
  searchArg_spreadsheetId : option string;
  searchArg_sheetName : string;
  searchArg_searchText : string;
  searchArg_matchType : option string;
  searchArg_maxResults : option Z
}.

(** The object pushed for a matching cell. *)
Record searchMatch : Type := mkMatch {
  cellRef : string;
  value : string;
  row : Z;
  col : string
}.

(** The text block of a tool result, kept as the template chosen and the
    values interpolated into it. *)
Inductive toolText : Type :=
| MissingSpreadsheetId (received : gidArgs)
| NoGidProvided (spreadsheetIdArg gidArgument : option string)
| SheetNotFound (g : string)
| SheetFound (props : option SheetProperties)
| PreviewEmpty (sheetName : string)
| Preview (sheetName : string) (rows maxCols numRows : Z)
          (lines : list (Z * list (string * cell)))
| SearchNoData (sheetName : string)
| SearchNoMatches (searchText matchType sheetName : string)
| SearchFound (total : Z) (plural : bool)
              (searchText matchType sheetName : string)
              (showingFirst : option Z) (matchList : list (string * string))
| ErrorExecuting (toolName message : string).

Record MCPToolResult : Type := mkToolResult {
  content : toolText;
  isError : bool
}.

(** [if (!gid && args.gid) gid = args.gid]: the gid of the URL, and the
    [gid] argument when the URL gave none. *)
Definition gidOrArgument (fromUrl argument : option string) : option string :=
  if negb (JS.truthyOpt fromUrl) && JS.truthyOpt argument
  then argument else fromUrl.

(** The [get-sheet-by-gid] branch of [handleToolCall]. *)
Definition getSheetByGidTool (args : gidArgs) : Client MCPToolResult :=
  let inputId := JS.orElse (gidArg_spreadsheetId args) (gidArg_url args) in
  if negb (JS.truthyOpt inputId)
  then ret (mkToolResult (MissingSpreadsheetId args) true)
  else
    parsed <- lift (parseSpreadsheetInput inputId) ;;
    match gidOrArgument (gid parsed) (gidArg_gid args) with
    | Some g =>
        if negb (JS.truthy g)
        then ret (mkToolResult
                    (NoGidProvided (gidArg_spreadsheetId args) (gidArg_gid args))
                    true)
        else
          sheet <- getSheetByGid (spreadsheetId parsed) g ;;
          match sheet with
          | None => ret (mkToolResult (SheetNotFound g) true)
          | Some sh => ret (mkToolResult (SheetFound (properties sh)) false)
          end
    | None =>
        ret (mkToolResult
               (NoGidProvided (gidArg_spreadsheetId args) (gidArg_gid args))
               true)
    end.

(** [Math.min(args.numRows || 10, 50)]. *)
Definition previewNumRows (args : previewArgs) : Z :=
  Z.min (match previewArg_numRows args with
         | Some n => if n =? 0 then 10 else n
         | None => 10
         end) 50.

(** [cell !== undefined && cell !== '' ? cell : '(empty)']. *)
Definition previewCell (c : cell) : cell :=
  match c with
  | CellString EmptyString => CellString "(empty)"
  | _ => c
  end.

(** The inner callback of the preview: one more line [cellRef: value]. *)
Definition previewCellCallback (rowNum : Z) (acc : list (string * cell))
  (c : cell) (colIdx : Z) : list (string * cell) :=
  let colLetter := columnIndexToLetter colIdx in
  let ref := colLetter ++ JS.numberToString rowNum in
  (acc ++ [(ref, previewCell c)])%list.

Definition previewRowCallback (acc : list (Z * list (string * cell)))
  (r : list cell) (rowIdx : Z) : list (Z * list (string * cell)) :=
  let rowNum := rowIdx + 1 in
  (acc ++ [(rowNum, forEach (previewCellCallback rowNum) r [])])%list.

(** [Math.max(...lengths)] of a non-empty list of lengths. *)
Definition maxLength (grid : list (list cell)) : Z :=
  match grid with
  | [] => 0
  | r :: rs =>
      fold_left Z.max (map (fun x => Z.of_nat (List.length x)) rs)
        (Z.of_nat (List.length r))
  end.

(** The [get-sheet-preview] branch of [handleToolCall]. *)
Definition getSheetPreviewTool (args : previewArgs) : Client MCPToolResult :=
  parsed <- lift (parseSpreadsheetInput (previewArg_spreadsheetId args)) ;;
  let numRows := previewNumRows args in
  let rng := previewArg_sheetName args ++ "!A1:ZZ" ++ JS.numberToString numRows in
  result <- getValues (spreadsheetId parsed) rng ;;
  match values result with
  | None | Some [] =>
      ret (mkToolResult (PreviewEmpty (previewArg_sheetName args)) false)
  | Some grid =>
      ret (mkToolResult
             (Preview (previewArg_sheetName args)
                (Z.of_nat (List.length grid)) (maxLength grid) numRows
                (forEach previewRowCallback grid []))
             false)
  end.

(** [String(cell || '')]: a falsy cell reads as the empty string. *)
Definition cellText (c : cell) : string :=
  match c with
  | CellString s => s
  | CellNumber n => if n =? 0 then EmptyString else JS.numberToString n
  | CellBool true => "true"
  | CellBool false => EmptyString
  | CellNull => EmptyString
  end.

(** [args.matchType || 'contains'] and [args.maxResults || 50]. *)
Definition searchMatchType (args : searchArgs) : string :=
  match searchArg_matchType args with
  | Some m => if JS.truthy m then m else "contains"
  | None => "contains"
  end.

Definition searchMaxResults (args : searchArgs) : Z :=
  match searchArg_maxResults args with
  | Some n => if n =? 0 then 50 else n
  | None => 50
  end.

(** The test applied to one cell. *)
Definition isMatch (matchType searchLower cellValue : string) : bool :=
  let cellLower := JS.toLowerCase cellValue in
  if String.eqb matchType "exact"
  then String.eqb cellLower searchLower
  else JS.includes searchLower cellLower.

(** The variables of the scan: the [matches] array of the source, and a
    ghost log [visited] of the positions the inner callback ran on (the
    source keeps no such log; it records which cells the scan reaches). *)
Record scanState : Type := mkScan {
  matches : list searchMatch;
  visited : list (Z * Z)
}.

(** The inner callback [(cell, colIdx) => ...]. *)
Definition searchCellCallback (matchType searchLower : string) (rowIdx : Z)
  (st : scanState) (c : cell) (colIdx : Z) : scanState :=
  let cellValue := cellText c in
  let seen := (visited st ++ [(rowIdx, colIdx)])%list in
  if isMatch matchType searchLower cellValue then
    let colLetter := columnIndexToLetter colIdx in
    let ref := colLetter ++ JS.numberToString (rowIdx + 1) in
    mkScan (matches st ++ [mkMatch ref cellValue (rowIdx + 1) colLetter])%list seen
  else mkScan (matches st) seen.

(** The outer callback [(row, rowIdx) => ...]: the whole row is scanned,
    and the [return] that follows ends this call of the callback only. *)
Definition searchRowCallback (matchType searchLower : string) (maxResults : Z)
  (st : scanState) (r : list cell) (rowIdx : Z) : scanState :=
  let st' := forEach (searchCellCallback matchType searchLower rowIdx) r st in
  if Z.of_nat (List.length (matches st')) >=? maxResults
  then st'   (* return; *)
  else st'.

Definition searchScan (args : searchArgs) (grid : list (list cell)) : scanState :=
  forEach
    (searchRowCallback (searchMatchType args)
       (JS.toLowerCase (searchArg_searchText args)) (searchMaxResults args))
    grid (mkScan [] []).

(** The [search-values] branch of [handleToolCall]. *)
Definition searchValuesTool (args : searchArgs) : Client MCPToolResult :=
  parsed <- lift (parseSpreadsheetInput (searchArg_spreadsheetId args)) ;;
  let matchType := searchMatchType args in
  let maxResults := searchMaxResults args in
  let rng := searchArg_sheetName args ++ "!A1:ZZ10000" in
  result <- getValues (spreadsheetId parsed) rng ;;
  match values result with
  | None | Some [] =>
      ret (mkToolResult (SearchNoData (searchArg_sheetName args)) false)
  | Some grid =>
      let found := matches (searchScan args grid) in
      let total := Z.of_nat (List.length found) in
      if total =? 0 then
        ret (mkToolResult
               (SearchNoMatches (searchArg_searchText args) matchType
                  (searchArg_sheetName args)) false)
      else
        let matchList :=
          map (fun m => (cellRef m, value m)) (JS.slice0 maxResults found) in
        ret (mkToolResult
               (SearchFound total (1 <? total) (searchArg_searchText args)
                  matchType (searchArg_sheetName args)
                  (if maxResults <? total then Some maxResults else None)
                  matchList)
               false)
  end.

(** index.js: the wrapper registered for each tool. A handler that throws
    is answered with an error-flagged result. *)
Definition serveTool (toolName : string) (handler : Client MCPToolResult)
  : Client MCPToolResult :=
  fun api log =>
    match handler api log with
    | (Throws e, log') =>
        (Returns (mkToolResult (ErrorExecuting toolName e) true), log')
    | r => r
    end.

(* ===================================================================== *)
(** ** Statements used by the properties below *)
(* ===================================================================== *)

(** The precedence law read without a condition on the value of the query
    parameter: whenever the query has a pair called gid and the fragment
    names another gid, the value of the query pair is returned. *)
Definition query_gid_always_wins : Prop :=
  forall url id g h,
    JS.startsWith "http://" url || JS.startsWith "https://" url = true ->
    Platform.matchAfter "/spreadsheets/d/" isIdChar url = Some id ->
    Platform.searchParamsGet url "gid" = Platform.ParamValue g ->
    hashGid url = Some h ->
    h <> g ->
    parseSpreadsheetInput (Some url) = Returns (mkParsed id (Some g)).

(** The positions of a list, counted from [i]. *)
Fixpoint indexedFrom {A : Type} (i : Z) (l : list A) : list (Z * A) :=
  match l with
  | [] => []
  | x :: l' => (i, x) :: indexedFrom (i + 1) l'
  end.

(** The cells of a grid in row-major order, each with its zero-based row
    and column. *)
Definition rowMajorCells (grid : list (list cell)) : list (Z * Z * cell) :=
  flat_map
    (fun ir => map (fun jc => (fst ir, fst jc, snd jc)) (indexedFrom 0 (snd ir)))
    (indexedFrom 0 grid).

(** The match reported for the cell at a position. *)
Definition matchAt (p : Z * Z * cell) : searchMatch :=
  let '(r, c, x) := p in
  mkMatch (columnIndexToLetter c ++ JS.numberToString (r + 1)) (cellText x)
    (r + 1) (columnIndexToLetter c).

(** All the matches of a grid, in row-major order. *)
Definition allMatches (matchType searchLower : string)
  (grid : list (list cell)) : list searchMatch :=
  map matchAt
    (filter (fun p => isMatch matchType searchLower (cellText (snd p)))
       (rowMajorCells grid)).

(* ===================================================================== *)
(** ** google-sheets-client.js: the REST client with the response envelope *)
(* ===================================================================== *)

(** JavaScript values, as [JSON.parse] returns them and as the client
    builds them. The fields of an object have distinct names. *)
#[warnings="-register-all"] Inductive jsValue : Type :=
| JUndefined
| JNull
| JBool (b : bool)
| JNumber (n : Z)
| JString (s : string)
| JArray (items : list jsValue)
| JObject (fields : list (string * jsValue)).

Fixpoint lookupField (k : string) (fs : list (string * jsValue)) : jsValue :=
  match fs with
  | [] => JUndefined
  | (k', v) :: fs' => if String.eqb k' k then v else lookupField k fs'
  end.

(** [v?.k], for the field names the client reads (none of them is a
    built-in property of a string or an array). *)
Definition optProp (v : jsValue) (k : string) : jsValue :=
  match v with
  | JObject fs => lookupField k fs
  | _ => JUndefined
  end.

(** A step that can throw. *)
Inductive attempt (A : Type) : Type :=
| Done (a : A)
| Raised (message : string).
Arguments Done {A} a.
Arguments Raised {A} message.

(** The message of the engine's TypeError; its wording is not modelled. *)
Definition typeErrorMessage : string := "TypeError".

(** The message of the TypeError of [new URL] on a text that is no URL. *)
Definition invalidUrlError : string := "Invalid URL".

(** [v.k]: reading a property of [undefined] or [null] throws. *)
Definition prop (v : jsValue) (k : string) : attempt jsValue :=
  match v with
  | JUndefined | JNull => Raised typeErrorMessage
  | _ => Done (optProp v k)
  end.

(** The envelope [{ success, data }] / [{ success, error }]: [None] is a
    key that the object does not have. *)
Record MCPResponse : Type := mkResponse {
  success : bool;
  data : option jsValue;
  error : option string
}.

Definition succeeded (d : jsValue) : MCPResponse := mkResponse true (Some d) None.
Definition failed (message : string) : MCPResponse :=
  mkResponse false None (Some message).

(** How a promise ends: resolved, rejected, or never settled (an exception
    thrown inside a stream callback reaches neither [resolve] nor [reject]). *)
Inductive settled (A : Type) : Type :=
| Resolved (a : A)
| Rejected (message : string)
| Pending.
Arguments Resolved {A} a.
Arguments Rejected {A} message.
Arguments Pending {A}.

(** What comes back from an HTTPS request. *)
Inductive httpReply : Type :=
| HttpResponse (statusCode : Z) (body : string)
| HttpError (message : string).

(** The body of a token reply as [getAccessToken] reads it: an object with,
    when they are present, a string [access_token] and an integer
    [expires_in]; or a text on which [JSON.parse] or the property read throws. *)
Inductive tokenBody : Type :=
| BodyObject (access_token : option string) (expires_in : option Z)
| BodyUnreadable.

Inductive tokenReply : Type :=
| TokenResponse (statusCode : Z) (body : string) (parsed : tokenBody)
| TokenError (message : string).

Record apiRequest : Type := mkRequest {
  method : string;
  url : string;
  authorization : string;
  requestBody : option jsValue
}.

(** What the client sends out. *)
Inductive netEvent : Type :=
| TokenExchange (tokenUri postData : string)
| ApiCall (request : apiRequest).

(** The world around one call of a client method. *)
Record World : Type := mkWorld {
  now_at_check : Z;                       (* Date.now() in the cache test *)
  now_at_reply : Z;                       (* Date.now() when the token arrives *)
  createJWT : attempt string;             (* the signed assertion, or the error of the signer *)
  urlParses : string -> bool;             (* whether new URL accepts a text *)
  tokenEndpoint : string -> tokenReply;   (* by the form posted *)
  sheetsApi : apiRequest -> httpReply;
  JSON_parse : string -> option jsValue   (* None: SyntaxError *)
}.

(** The fields of the client object. *)
Record clientState : Type := mkClient {
  apiUrl : string;
  token_uri : string;
  accessToken : option string;
  tokenExpiry : option Z                  (* None: null or NaN *)
}.

Definition Task (A : Type) : Type :=
  World -> clientState -> list netEvent ->
  settled A * clientState * list netEvent.

(** Upper-case hexadecimal digit. *)
Definition hexDigit (n : Z) : ascii :=
  if n <? 10 then JS.fromCharCode (48 + n) else JS.fromCharCode (55 + n).

(** The UTF-8 bytes of a code unit below 256. *)
Definition utf8Bytes (c : ascii) : list Z :=
  let n := JS.charCode c in
  if n <? 128 then [n] else [192 + n / 64; 128 + n mod 64].

Fixpoint percentEncodeBytes (bs : list Z) : string :=
  match bs with
  | [] => EmptyString
  | b :: bs' =>
      String "%"%char (String (hexDigit (b / 16)) (String (hexDigit (b mod 16))
        (percentEncodeBytes bs')))
  end.

Definition isAlphaNum (c : ascii) : bool :=
  Platform.isLetter c || Platform.isDigit c.

Definition oneOf (set : string) (c : ascii) : bool :=
  JS.includes (String c EmptyString) set.

(** [encodeURIComponent(s)]. *)
Fixpoint encodeURIComponent (s : string) : string :=
  match s with
  | EmptyString => EmptyString
  | String c s' =>
      (if isAlphaNum c || oneOf "-_.!~*'()" c
       then String c EmptyString
       else percentEncodeBytes (utf8Bytes c)) ++ encodeURIComponent s'
  end.

(** The form encoding of [URLSearchParams.toString()]. *)
Fixpoint formEncode (s : string) : string :=
  match s with
  | EmptyString => EmptyString
  | String c s' =>
      (if isAlphaNum c || oneOf "*-._" c then String c EmptyString
       else if Ascii.eqb c " "%char then "+"
       else percentEncodeBytes (utf8Bytes c)) ++ formEncode s'
  end.

Fixpoint joinWith (sep : string) (l : list string) : string :=
  match l with
  | [] => EmptyString
  | [x] => x
  | x :: l' => x ++ sep ++ joinWith sep l'
  end.

Definition searchParamsToString (params : list (string * string)) : string :=
  joinWith "&" (map (fun kv => formEncode (fst kv) ++ "=" ++ formEncode (snd kv)) params).

(** A pair is appended when the option is truthy. *)
Definition appendIfSet (name : string) (v : option string)
  (params : list (string * string)) : list (string * string) :=
  match v with
  | Some s => if JS.truthy s then (params ++ [(name, s)])%list else params
  | None => params
  end.

(** [`Bearer ${token}`]. *)
Definition bearer (token : option string) : string :=
  "Bearer " ++ match token with Some t => t | None => "undefined" end.

Module GoogleSheetsClient.

(** The test of the cache: [this.accessToken && this.tokenExpiry &&
    Date.now() < this.tokenExpiry - 300000]. *)
Definition tokenIsFresh (w : World) (st : clientState) : bool :=
  JS.truthyOpt (accessToken st)
  && match tokenExpiry st with
     | Some e => negb (e =? 0) && (now_at_check w <? e - 300000)
     | None => false
     end.

Definition tokenPostData (jwt : string) : string :=
  searchParamsToString
    [("grant_type", "urn:ietf:params:oauth:grant-type:jwt-bearer");
     ("assertion", jwt)].

Definition getAccessToken : Task (option string) :=
  fun w st log =>
    if tokenIsFresh w st then (Resolved (accessToken st), st, log)
    else
      match createJWT w with
      | Raised m => (Rejected m, st, log)
      | Done jwt =>
          let postData := tokenPostData jwt in
          if negb (urlParses w (token_uri st))
          then (Rejected invalidUrlError, st, log)
          else
            let log' := (log ++ [TokenExchange (token_uri st) postData])%list in
            match tokenEndpoint w postData with
            | TokenError m => (Rejected m, st, log')
            | TokenResponse statusCode body parsed =>
                if statusCode =? 200 then
                  match parsed with
                  | BodyUnreadable => (Pending, st, log')
                  | BodyObject token expires =>
                      let st' :=
                        mkClient (apiUrl st) (token_uri st) token
                          (option_map (fun e => now_at_reply w + e * 1000) expires) in
                      (Resolved token, st', log')
                  end
                else
                  (Rejected ("Token request failed: "
                             ++ JS.numberToString statusCode ++ " " ++ body),
                   st, log')
            end
      end.

(** The request shared by [get] and [put]: the token, the URL, the call, and
    the body parsed on a 200. *)
Definition request (verb path : string) (body : option jsValue) : Task jsValue :=
  fun w st log =>
    match getAccessToken w st log with
    | (Resolved token, st', log') =>
        let target := apiUrl st' ++ path in
        if negb (urlParses w target)
        then (Rejected invalidUrlError, st', log')
        else
          let req := mkRequest verb target (bearer token) body in
          let log'' := (log' ++ [ApiCall req])%list in
          match sheetsApi w req with
          | HttpError m => (Rejected m, st', log'')
          | HttpResponse statusCode text =>
              if statusCode =? 200 then
                match JSON_parse w text with
                | Some v => (Resolved v, st', log'')
                | None => (Pending, st', log'')
                end
              else
                (Rejected (verb ++ " " ++ path ++ " failed: "
                           ++ JS.numberToString statusCode ++ " " ++ text),
                 st', log'')
          end
    | (Rejected m, st', log') => (Rejected m, st', log')
    | (Pending, st', log') => (Pending, st', log')
    end.

Definition get (path : string) : Task jsValue := request "GET" path None.

Definition put (path : string) (body : jsValue) : Task jsValue :=
  request "PUT" path (Some body).

(** [try { const data = await ...; return { success: true, data } }
     catch (error) { return { success: false, error: error.message } }]. *)
Definition envelope (t : Task jsValue) : Task MCPResponse :=
  fun w st log =>
    match t w st log with
    | (Resolved d, st', log') => (Resolved (succeeded d), st', log')
    | (Rejected m, st', log') => (Resolved (failed m), st', log')
    | (Pending, st', log') => (Pending, st', log')
    end.

Definition getSpreadsheet (id : string) (includeGridData : bool)
  : Task MCPResponse :=
  let params := if includeGridData then "?includeGridData=true" else "" in
  envelope (get ("/spreadsheets/" ++ id ++ params)).

Record renderOptions : Type := mkRenderOptions {
  valueRenderOption : option string;
  dateTimeRenderOption : option string
}.

Definition getValues (id rng : string) (options : renderOptions)
  : Task MCPResponse :=
  let params :=
    appendIfSet "dateTimeRenderOption" (dateTimeRenderOption options)
      (appendIfSet "valueRenderOption" (valueRenderOption options) []) in
  let queryString := searchParamsToString params in
  envelope
    (get ("/spreadsheets/" ++ id ++ "/values/" ++ encodeURIComponent rng
          ++ (if JS.truthy queryString then "?" ++ queryString else ""))).

Definition batchGetValues (id : string) (ranges : list string)
  (options : renderOptions) : Task MCPResponse :=
  let params :=
    appendIfSet "dateTimeRenderOption" (dateTimeRenderOption options)
      (appendIfSet "valueRenderOption" (valueRenderOption options)
         (map (fun r => ("ranges", r)) ranges)) in
  envelope
    (get ("/spreadsheets/" ++ id ++ "/values:batchGet?"
          ++ searchParamsToString params)).

(** [options.valueInputOption || 'USER_ENTERED']. *)
Definition inputOption (o : option string) : string :=
  match o with
  | Some s => if JS.truthy s then s else "USER_ENTERED"
  | None => "USER_ENTERED"
  end.

Definition updateValues (id rng : string) (vals : jsValue)
  (valueInputOption : option string) : Task MCPResponse :=
  envelope
    (put ("/spreadsheets/" ++ id ++ "/values/" ++ encodeURIComponent rng
          ++ "?valueInputOption=" ++ inputOption valueInputOption)
         (JObject [("values", vals)])).

(** [appendValues] sends its own POST and resolves with an envelope in
    every callback; the surrounding [try] covers the token and the URL. *)
Definition appendValues (id rng : string) (vals : jsValue)
  (valueInputOption : option string) : Task MCPResponse :=
  fun w st log =>
    match getAccessToken w st log with
    | (Resolved token, st', log') =>
        let path := "/spreadsheets/" ++ id ++ "/values/"
                    ++ encodeURIComponent rng ++ ":append?valueInputOption="
                    ++ inputOption valueInputOption in
        let target := apiUrl st' ++ path in
        if negb (urlParses w target)
        then (Resolved (failed invalidUrlError), st', log')
        else
          let req := mkRequest "POST" target (bearer token)
                       (Some (JObject [("values", vals)])) in
          let log'' := (log' ++ [ApiCall req])%list in
          match sheetsApi w req with
          | HttpError m => (Resolved (failed m), st', log'')
          | HttpResponse statusCode text =>
              if statusCode =? 200 then
                match JSON_parse w text with
                | Some v => (Resolved (succeeded v), st', log'')
                | None => (Pending, st', log'')
                end
              else
                (Resolved (failed ("POST " ++ path ++ " failed: "
                                   ++ JS.numberToString statusCode ++ " " ++ text)),
                 st', log'')
          end
    | (Rejected m, st', log') => (Resolved (failed m), st', log')
    | (Pending, st', log') => (Pending, st', log')
    end.

(** The object built for one sheet by the callback of [map]. *)
Definition sheetSummary (sheet : jsValue) : attempt jsValue :=
  match prop sheet "properties" with
  | Raised m => Raised m
  | Done props =>
      Done (JObject
              [("title", optProp props "title");
               ("sheetId", optProp props "sheetId");
               ("index", optProp props "index");
               ("rowCount", optProp (optProp props "gridProperties") "rowCount");
               ("columnCount",
                optProp (optProp props "gridProperties") "columnCount")])
  end.

Fixpoint mapAttempt {A B : Type} (f : A -> attempt B) (l : list A)
  : attempt (list B) :=
  match l with
  | [] => Done []
  | x :: l' =>
      match f x with
      | Raised m => Raised m
      | Done y =>
          match mapAttempt f l' with
          | Raised m => Raised m
          | Done ys => Done (y :: ys)
          end
      end
  end.

(** [result.data.sheets?.map(...) || []]. *)
Definition sheetSummaries (d : option jsValue) : attempt jsValue :=
  match prop (match d with Some v => v | None => JUndefined end) "sheets" with
  | Raised m => Raised m
  | Done JUndefined | Done JNull => Done (JArray [])
  | Done (JArray items) =>
      match mapAttempt sheetSummary items with
      | Raised m => Raised m
      | Done l => Done (JArray l)
      end
  | Done _ => Raised typeErrorMessage   (* [map] is not a function *)
  end.

Definition listSheets (id : string) : Task MCPResponse :=
  fun w st log =>
    match getSpreadsheet id false w st log with
    | (Resolved result, st', log') =>
        if negb (success result) then (Resolved result, st', log')
        else
          match sheetSummaries (data result) with
          | Done l => (Resolved (succeeded l), st', log')
          | Raised m => (Resolved (failed m), st', log')
          end
    | (Rejected m, st', log') => (Resolved (failed m), st', log')
    | (Pending, st', log') => (Pending, st', log')
    end.

End GoogleSheetsClient.

(* ===================================================================== *)
(** ** handlers/value-handlers.js and handlers/sheet-handlers.js *)
(* ===================================================================== *)

(** The argument object of a handler; [None] is a key that is absent. *)
Record handlerArgs : Type := mkHandlerArgs {
  arg_spreadsheet_id : option string;
  arg_range : option string;
  arg_ranges : option (list string);
  arg_values : option jsValue;
  arg_value_render_option : option string;
  arg_date_time_render_option : option string;
  arg_value_input_option : option string;
  arg_include_grid_data : option bool;
  arg_gid : option Z
}.

Definition quote : string := String (JS.fromCharCode 34) EmptyString.

Definition spreadsheetIdRequired : string := "spreadsheet_id is required".

Definition rangeRequired (example : string) : string :=
  "range is required (e.g., " ++ example ++ ")".

Definition valuesRequired : string := "values is required and must be a 2D array".

Definition resolved {A : Type} (a : A) : Task A :=
  fun _ st log => (Resolved a, st, log).

Module valueHandlers.

Definition getValues (args : handlerArgs) : Task MCPResponse :=
  match arg_spreadsheet_id args with
  | Some id =>
      if negb (JS.truthy id) then resolved (failed spreadsheetIdRequired)
      else
        match arg_range args with
        | Some rng =>
            if negb (JS.truthy rng)
            then resolved (failed (rangeRequired
                            (quote ++ "Sheet1!A1:B10" ++ quote)))
            else GoogleSheetsClient.getValues id rng
                   (GoogleSheetsClient.mkRenderOptions
                      (arg_value_render_option args)
                      (arg_date_time_render_option args))
        | None =>
            resolved (failed (rangeRequired (quote ++ "Sheet1!A1:B10" ++ quote)))
        end
  | None => resolved (failed spreadsheetIdRequired)
  end.

Definition batchGetValues (args : handlerArgs) : Task MCPResponse :=
  match arg_spreadsheet_id args with
  | Some id =>
      if negb (JS.truthy id) then resolved (failed spreadsheetIdRequired)
      else
        match arg_ranges args with
        | Some (r :: rs) =>
            GoogleSheetsClient.batchGetValues id (r :: rs)
              (GoogleSheetsClient.mkRenderOptions
                 (arg_value_render_option args)
                 (arg_date_time_render_option args))
        | Some [] | None =>
            resolved (failed "ranges is required and must be a non-empty array")
        end
  | None => resolved (failed spreadsheetIdRequired)
  end.

(** The three tests shared by [updateValues] and [appendValues]. *)
Definition withRangeAndValues (example : string) (args : handlerArgs)
  (k : string -> string -> jsValue -> Task MCPResponse) : Task MCPResponse :=
  match arg_spreadsheet_id args with
  | Some id =>
      if negb (JS.truthy id) then resolved (failed spreadsheetIdRequired)
      else
        match arg_range args with
        | Some rng =>
            if negb (JS.truthy rng) then resolved (failed (rangeRequired example))
            else
              match arg_values args with
              | Some (JArray rows) => k id rng (JArray rows)
              | _ => resolved (failed valuesRequired)
              end
        | None => resolved (failed (rangeRequired example))
        end
  | None => resolved (failed spreadsheetIdRequired)
  end.

Definition updateValues (args : handlerArgs) : Task MCPResponse :=
  withRangeAndValues (quote ++ "Sheet1!A1:B10" ++ quote) args
    (fun id rng vals =>
       GoogleSheetsClient.updateValues id rng vals (arg_value_input_option args)).

Definition appendValues (args : handlerArgs) : Task MCPResponse :=
  withRangeAndValues
    (quote ++ "Sheet1" ++ quote ++ " or " ++ quote ++ "Sheet1!A1" ++ quote) args
    (fun id rng vals =>
       GoogleSheetsClient.appendValues id rng vals (arg_value_input_option args)).

End valueHandlers.

Module sheetHandlers.

Definition getSpreadsheet (args : handlerArgs) : Task MCPResponse :=
  match arg_spreadsheet_id args with
  | Some id =>
      if negb (JS.truthy id) then resolved (failed spreadsheetIdRequired)
      else GoogleSheetsClient.getSpreadsheet id
             (match arg_include_grid_data args with
              | Some b => b
              | None => false
              end)
  | None => resolved (failed spreadsheetIdRequired)
  end.

Definition listSheets (args : handlerArgs) : Task MCPResponse :=
  match arg_spreadsheet_id args with
  | Some id =>
      if negb (JS.truthy id) then resolved (failed spreadsheetIdRequired)
      else GoogleSheetsClient.listSheets id
  | None => resolved (failed spreadsheetIdRequired)
  end.

(** [data.find(s => s.sheetId === args.gid)]. *)
Fixpoint findSheet (g : Z) (l : list jsValue) : attempt (option jsValue) :=
  match l with
  | [] => Done None
  | s :: l' =>
      match prop s "sheetId" with
      | Raised m => Raised m
      | Done (JNumber n) => if n =? g then Done (Some s) else findSheet g l'
      | Done _ => findSheet g l'
      end
  end.

Definition getSheetByGid (args : handlerArgs) : Task MCPResponse :=
  match arg_spreadsheet_id args with
  | Some id =>
      if negb (JS.truthy id) then resolved (failed spreadsheetIdRequired)
      else
        match arg_gid args with
        | None => resolved (failed "gid is required")
        | Some g =>
            fun w st log =>
              match GoogleSheetsClient.listSheets id w st log with
              | (Resolved sheetsResult, st', log') =>
                  if negb (success sheetsResult)
                  then (Resolved sheetsResult, st', log')
                  else
                    match data sheetsResult with
                    | Some (JArray l) =>
                        match findSheet g l with
                        | Raised m => (Rejected m, st', log')
                        | Done None =>
                            (Resolved (failed ("Sheet with gid "
                                               ++ JS.numberToString g
                                               ++ " not found")),
                             st', log')
                        | Done (Some sheet) =>
                            (Resolved (succeeded sheet), st', log')
                        end
                    | _ => (Rejected typeErrorMessage, st', log')
                    end
              | (Rejected m, st', log') => (Rejected m, st', log')
              | (Pending, st', log') => (Pending, st', log')
              end
        end
  | None => resolved (failed spreadsheetIdRequired)
  end.

End sheetHandlers.

(** The operations that answer with an envelope: the public methods of the
    client and the handlers. *)
Inductive operation : Type :=
| ClientGetSpreadsheet (id : string) (includeGridData : bool)
| ClientGetValues (id rng : string) (options : GoogleSheetsClient.renderOptions)
| ClientBatchGetValues (id : string) (ranges : list string)
    (options : GoogleSheetsClient.renderOptions)
| ClientUpdateValues (id rng : string) (vals : jsValue)
    (valueInputOption : option string)
| ClientAppendValues (id rng : string) (vals : jsValue)
    (valueInputOption : option string)
| ClientListSheets (id : string)
| HandlerGetValues (args : handlerArgs)
| HandlerBatchGetValues (args : handlerArgs)
| HandlerUpdateValues (args : handlerArgs)
| HandlerAppendValues (args : handlerArgs)
| HandlerGetSpreadsheet (args : handlerArgs)
| HandlerListSheets (args : handlerArgs)
| HandlerGetSheetByGid (args : handlerArgs).

Definition run (op : operation) : Task MCPResponse :=
  match op with
  | ClientGetSpreadsheet id g => GoogleSheetsClient.getSpreadsheet id g
  | ClientGetValues id r o => GoogleSheetsClient.getValues id r o
  | ClientBatchGetValues id rs o => GoogleSheetsClient.batchGetValues id rs o
  | ClientUpdateValues id r v o => GoogleSheetsClient.updateValues id r v o
  | ClientAppendValues id r v o => GoogleSheetsClient.appendValues id r v o
  | ClientListSheets id => GoogleSheetsClient.listSheets id
  | HandlerGetValues a => valueHandlers.getValues a
  | HandlerBatchGetValues a => valueHandlers.batchGetValues a
  | HandlerUpdateValues a => valueHandlers.updateValues a
  | HandlerAppendValues a => valueHandlers.appendValues a
  | HandlerGetSpreadsheet a => sheetHandlers.getSpreadsheet a
  | HandlerListSheets a => sheetHandlers.listSheets a
  | HandlerGetSheetByGid a => sheetHandlers.getSheetByGid a
  end.





(** An object, as opposed to a primitive or an array. *)
Definition isObject (v : jsValue) : Prop :=
  match v with JObject _ => True | _ => False end.

(* ===================================================================== *)
(** ** Concrete inputs on which the properties are exercised *)
(* ===================================================================== *)

(** A Google that serves one value range to every read and no metadata. *)
Definition apiServing (vr : ValueRange) : GoogleApi :=
  mkGoogleApi (fun _ _ => Throws "unused") (fun _ _ => Returns vr).

(** A Google that serves one spreadsheet's metadata and no values. *)
Definition apiDescribing (ss : Spreadsheet) : GoogleApi :=
  mkGoogleApi (fun _ _ => Returns ss) (fun _ _ => Throws "unused").

Definition scoresGrid : list (list cell) :=
  [[CellString "Name"; CellString "Score"];
   [CellString "Alice"; CellString "95"]].

Definition lettersGrid : list (list cell) :=
  [[CellString "a"; CellString "A"; CellString "ba"];
   [CellString "x"; CellString "ya"]].

Definition sheetNumbered (n : Z) (name : string) : Sheet :=
  mkSheet (Some (mkSheetProperties (Some n) (Some name) None None None None)).

Definition twoSheets : Spreadsheet :=
  mkSpreadsheet (Some [sheetNumbered 0 "Sheet1"; sheetNumbered 1850828774 "Data"]).

(** A world whose token endpoint grants [token] for an hour and whose API
    gives the same reply to every request. *)
Definition worldReplying (nowCheck nowReply : Z) (token : string)
  (reply : httpReply) : World :=
  mkWorld nowCheck nowReply (Done "jwt") (fun _ => true)
    (fun _ => TokenResponse 200 "{}" (BodyObject (Some token) (Some 3600)))
    (fun _ => reply) (fun _ => None).

Definition clientWith (token : option string) (expiry : option Z) : clientState :=
  mkClient "https://sheets.googleapis.com/v4"
    "https://oauth2.googleapis.com/token" token expiry.

(* ===================================================================== *)
(** ** utils/url-parser.js: buildA1Notation *)
(* ===================================================================== *)

(** [buildA1Notation(sheetName, range)]: an absent or empty range gives the
    sheet name alone. *)
Definition buildA1Notation (sheetName : string) (rng : option string) : string :=
  match rng with
  | Some r => if negb (JS.truthy r) then sheetName else sheetName ++ "!" ++ r
  | None => sheetName
  end.

(* ===================================================================== *)
(** ** tools/search.tools.js: find-in-column; tools/sheet.tools.js:
       get-sheet-info *)
(* ===================================================================== *)

(** A tool result whose text block is of the type [T]. *)
Record toolResultOf (T : Type) : Type := mkResultOf {
  textOf : T;
  isErrorOf : bool
}.
Arguments mkResultOf {T} textOf isErrorOf.
Arguments textOf {T} _.
Arguments isErrorOf {T} _.

Record findArgs : Type := mkFindArgs {
  findArg_spreadsheetId : option string;
  findArg_sheetName : string;
  findArg_column : string;
  findArg_searchText : string;
  findArg_matchType : option string
}.

(** The object pushed for a matching row of the column. *)
Record columnMatch : Type := mkColumnMatch {
  columnCellRef : string;
  columnValue : string;
  columnRow : Z
}.

(** The text block of [find-in-column], as template and holes. *)
Inductive findText : Type :=
| FindNoData (column : string)
| FindNoMatches (column searchText matchType sheetName : string)
| FindFound (total : Z) (plural : bool)
            (column searchText matchType sheetName : string)
            (matchList : list (Z * string * string)).

(** [args.matchType || 'contains']. *)
Definition matchTypeOrContains (o : option string) : string :=
  match o with
  | Some m => if JS.truthy m then m else "contains"
  | None => "contains"
  end.

(** [String(row[0] || '')]: an empty row has no first cell. *)
Definition firstCellText (r : list cell) : string :=
  match r with
  | [] => EmptyString
  | c :: _ => cellText c
  end.

(** The callback [(row, rowIdx) => ...] of the column scan. *)
Definition findRowCallback (matchType searchLower column : string)
  (found : list columnMatch) (r : list cell) (rowIdx : Z) : list columnMatch :=
  let cellValue := firstCellText r in
  if isMatch matchType searchLower cellValue
  then (found ++ [mkColumnMatch (column ++ JS.numberToString (rowIdx + 1))
                    cellValue (rowIdx + 1)])%list
  else found.

Definition findScan (args : findArgs) (grid : list (list cell)) : list columnMatch :=
  forEach
    (findRowCallback (matchTypeOrContains (findArg_matchType args))
       (JS.toLowerCase (findArg_searchText args)) (findArg_column args))
    grid [].

(** The [find-in-column] branch of [handleToolCall]. *)
Definition findInColumnTool (args : findArgs) : Client (toolResultOf findText) :=
  parsed <- lift (parseSpreadsheetInput (findArg_spreadsheetId args)) ;;
  let matchType := matchTypeOrContains (findArg_matchType args) in
  let rng := findArg_sheetName args ++ "!" ++ findArg_column args ++ "1:"
             ++ findArg_column args ++ "10000" in
  result <- getValues (spreadsheetId parsed) rng ;;
  match values result with
  | None | Some [] =>
      ret (mkResultOf (FindNoData (findArg_column args)) false)
  | Some grid =>
      let found := findScan args grid in
      let total := Z.of_nat (List.length found) in
      if total =? 0 then
        ret (mkResultOf
               (FindNoMatches (findArg_column args) (findArg_searchText args)
                  matchType (findArg_sheetName args)) false)
      else
        ret (mkResultOf
               (FindFound total (1 <? total) (findArg_column args)
                  (findArg_searchText args) matchType (findArg_sheetName args)
                  (map (fun m => (columnRow m, columnCellRef m, columnValue m))
                     found))
               false)
  end.

Record infoArgs : Type := mkInfoArgs {
  infoArg_spreadsheetId : option string;
  infoArg_sheetName : string
}.

(** The text block of [get-sheet-info], as template and holes. *)
Inductive infoText : Type :=
| InfoNotFound (sheetName : string)
| InfoFound (props : option SheetProperties).

(** [s.properties?.title === args.sheetName]. *)
Definition sheetHasTitle (name : string) (s : Sheet) : bool :=
  match properties s with
  | Some p =>
      match title p with
      | Some t => String.eqb t name
      | None => false
      end
  | None => false
  end.

(** The [get-sheet-info] branch of [handleToolCall]. *)
Definition getSheetInfoTool (args : infoArgs) : Client (toolResultOf infoText) :=
  parsed <- lift (parseSpreadsheetInput (infoArg_spreadsheetId args)) ;;
  spreadsheet <- getSpreadsheet (spreadsheetId parsed) false ;;
  match match sheets spreadsheet with
        | None => None
        | Some l => List.find (sheetHasTitle (infoArg_sheetName args)) l
        end with
  | None => ret (mkResultOf (InfoNotFound (infoArg_sheetName args)) true)
  | Some sh => ret (mkResultOf (InfoFound (properties sh)) false)
  end.

(* ===================================================================== *)
(** ** tools/search.tools.js: handleToolCall; tools/index.js: the registry;
       index.js: the registered wrapper *)
(* ===================================================================== *)

(** The argument object of the search module, with the keys of its two
    tools. *)
Record searchModuleArgs : Type := mkSearchModuleArgs {
  sm_spreadsheetId : option string;
  sm_sheetName : string;
  sm_searchText : string;
  sm_matchType : option string;
  sm_maxResults : option Z;
  sm_column : string
}.

(** The result of the search module: the result of one of its two tools. *)
Inductive searchModuleResult : Type :=
| SearchValuesResult (r : MCPToolResult)
| FindInColumnResult (r : toolResultOf findText).

Definition mapClient {A B : Type} (f : A -> B) (m : Client A) : Client B :=
  x <- m ;; ret (f x).

(** [handleToolCall] of tools/search.tools.js: [None] is the [null] returned
    for a name that is not one of the module's. *)
Definition searchTools_handleToolCall (name : string) (args : searchModuleArgs)
  : Client (option searchModuleResult) :=
  if String.eqb name "search-values" then
    mapClient (fun r => Some (SearchValuesResult r))
      (searchValuesTool
         (mkSearchArgs (sm_spreadsheetId args) (sm_sheetName args)
            (sm_searchText args) (sm_matchType args) (sm_maxResults args)))
  else if String.eqb name "find-in-column" then
    mapClient (fun r => Some (FindInColumnResult r))
      (findInColumnTool
         (mkFindArgs (sm_spreadsheetId args) (sm_sheetName args)
            (sm_column args) (sm_searchText args) (sm_matchType args)))
  else ret None.

(** [handleToolCall] of tools/index.js over the list of modules: each is
    tried in turn, the first result that is not null is returned, and a name
    that no module handles is an error. *)
Fixpoint registryHandleToolCall {Args R : Type}
  (toolModules : list (string -> Args -> Client (option R)))
  (name : string) (args : Args) : Client R :=
  match toolModules with
  | [] => lift (Throws ("Unknown tool: " ++ name))
  | handle :: rest =>
      result <- handle name args ;;
      match result with
      | Some r => ret r
      | None => registryHandleToolCall rest name args
      end
  end.

(** What the wrapper of index.js hands back: the handler's result, or the
    error-flagged text built from the error it threw. [message] is the
    message of the error; for an error that carries a response of the Google
    API it stands for the text the wrapper derives from that response. *)
Inductive served (R : Type) : Type :=
| Answer (r : R)
| ErrorAnswer (toolName message : string).
Arguments Answer {R} r.
Arguments ErrorAnswer {R} toolName message.

Definition registeredTool {R : Type} (toolName : string) (handler : Client R)
  : Client (served R) :=
  fun api log =>
    match handler api log with
    | (Returns r, log') => (Returns (Answer r), log')
    | (Throws e, log') => (Returns (ErrorAnswer toolName e), log')
    | (NotModelled, log') => (NotModelled, log')
    end.

(* ===================================================================== *)
(** ** Character classes used by the properties of the URL parser *)
(* ===================================================================== *)

(** A code unit that is printable and none of the separators of a URL or of
    a form-encoded query. *)
Definition isPlain (c : ascii) : bool :=
  Platform.isPrintable c && negb (oneOf "#?&+%/=" c).

(** A text in which the code unit [c] does not occur. *)
Definition without (c : ascii) (s : string) : bool :=
  Platform.forallb_string (fun x => negb (Ascii.eqb x c)) s.

(** The Google Sheets address of a spreadsheet id, with what follows
    [/edit]. *)
Definition sheetsUrl (id tail : string) : string :=
  "https://docs.google.com/spreadsheets/d/" ++ id ++ "/edit" ++ tail.

(** The same address up to [/edit]. *)
Definition sheetsStem (id : string) : string :=
  "https://docs.google.com/spreadsheets/d/" ++ id ++ "/edit".

(* ===================================================================== *)
(** ** Statements used by the further properties of the tools *)
(* ===================================================================== *)

(** The match reported for a row of the column scan. *)
Definition columnMatchAt (column : string) (ir : Z * list cell) : columnMatch :=
  mkColumnMatch (column ++ JS.numberToString (fst ir + 1))
    (firstCellText (snd ir)) (fst ir + 1).

(** All the matching rows of a fetched column, in order. *)
Definition allColumnMatches (matchType searchLower column : string)
  (grid : list (list cell)) : list columnMatch :=
  map (columnMatchAt column)
    (filter (fun ir => isMatch matchType searchLower (firstCellText (snd ir)))
       (indexedFrom 0 grid)).

(** The lines of the preview of a grid: for each row its number, and for each
    of its cells the reference and the value shown. *)
Definition previewLines (grid : list (list cell)) : list (Z * list (string * cell)) :=
  map (fun ir =>
         (fst ir + 1,
          map (fun jc =>
                 (columnIndexToLetter (fst jc) ++ JS.numberToString (fst ir + 1),
                  previewCell (snd jc)))
            (indexedFrom 0 (snd ir))))
    (indexedFrom 0 grid).

(* ===================================================================== *)
(** ** Statements used by the further properties of the REST client *)
(* ===================================================================== *)



(** The seven handlers, called on one argument object. *)
Definition handlerOperations (args : handlerArgs) : list operation :=
  [HandlerGetValues args; HandlerBatchGetValues args; HandlerUpdateValues args;
   HandlerAppendValues args; HandlerGetSpreadsheet args; HandlerListSheets args;
   HandlerGetSheetByGid args].

(** The summary that listSheets builds for a sheet that is not null. *)
Definition summaryOf (sheet : jsValue) : jsValue :=
  let props := optProp sheet "properties" in
  JObject
    [("title", optProp props "title");
     ("sheetId", optProp props "sheetId");
     ("index", optProp props "index");
     ("rowCount", optProp (optProp props "gridProperties") "rowCount");
     ("columnCount", optProp (optProp props "gridProperties") "columnCount")].

(** A value on which a property can be read. *)
Definition notNullish (v : jsValue) : Prop :=
  match v with JUndefined | JNull => False | _ => True end.

(** [s.sheetId === g] for a number [g]. *)
Definition hasSheetId (g : Z) (s : jsValue) : bool :=
  match optProp s "sheetId" with
  | JNumber n => n =? g
  | _ => false
  end.

(* ===================================================================== *)
(** ** Worked examples *)
(* ===================================================================== *)

Example parse_doc_url :
  parseSpreadsheetInput
    (Some "https://docs.google.com/spreadsheets/d/1FmDx17Gm2aEa0andQE_JP8qcJD5XfeYhIABvZeFX_Zo/edit?gid=1850828774#gid=1850828774")
  = Returns (mkParsed "1FmDx17Gm2aEa0andQE_JP8qcJD5XfeYhIABvZeFX_Zo" (Some "1850828774")).
Proof. vm_compute. reflexivity. Qed.

Example parse_doc_id :
  parseSpreadsheetInput (Some "1FmDx17Gm2aEa0andQE_JP8qcJD5XfeYhIABvZeFX_Zo")
  = Returns (mkParsed "1FmDx17Gm2aEa0andQE_JP8qcJD5XfeYhIABvZeFX_Zo" None).
Proof. reflexivity. Qed.

Example parse_empty_query_gid :
  parseSpreadsheetInput
    (Some "https://docs.google.com/spreadsheets/d/abc/edit?gid=#gid=5")
  = Returns (mkParsed "abc" (Some "5")).
Proof. vm_compute. reflexivity. Qed.

Example columnIndexToLetter_27 : columnIndexToLetter 27 = "AB".
Proof. reflexivity. Qed.

(* ===================================================================== *)
(** ** Properties of columnIndexToLetter *)
(* ===================================================================== *)

Section StringFacts.

Lemma string_app_assoc (a b c : string) : (a ++ b) ++ c = a ++ (b ++ c).
Proof. induction a as [|x a IH]; simpl; [reflexivity|now rewrite IH]. Qed.

Lemma string_app_nil_r (a : string) : a ++ "" = a.
Proof. induction a as [|x a IH]; simpl; [reflexivity|now rewrite IH]. Qed.

End StringFacts.

Section ColumnLetters.



Lemma charCode_range c : 0 <= JS.charCode c < 256.
Proof.
  unfold JS.charCode. pose proof (N_ascii_bounded c) as Hb.
  split; [apply N2Z.is_nonneg|].
  change 256 with (Z.of_N 256). apply N2Z.inj_lt. exact Hb.
Qed.













End ColumnLetters.



(* ===================================================================== *)
(** ** Properties of the string primitives *)
(* ===================================================================== *)

Section StringPrimitives.

Lemma startsWith_app p t : JS.startsWith p (p ++ t) = true.
Proof.
  induction p as [|a p IH]; simpl; [reflexivity|].
  rewrite Ascii.eqb_refl. exact IH.
Qed.

Lemma startsWith_spec p s :
  JS.startsWith p s = true <-> exists t, s = p ++ t.
Proof.
  split.
  - revert s. induction p as [|a p IH]; intros s H.
    + exists s. reflexivity.
    + destruct s as [|b s]; simpl in H; [discriminate|].
      apply andb_true_iff in H as [Hab Hps].
      apply Ascii.eqb_eq in Hab. subst b.
      destruct (IH s Hps) as [t Ht]. exists t. simpl. now rewrite Ht.
  - intros [t ->]. apply startsWith_app.
Qed.

Lemma dropPrefix_app p t : JS.dropPrefix p (p ++ t) = t.
Proof. induction p as [|a p IH]; simpl; [now destruct t|exact IH]. Qed.

Lemma includes_of_startsWith p s :
  JS.startsWith p s = true -> JS.includes p s = true.
Proof. intros H. destruct s; simpl in *; rewrite H; reflexivity. Qed.

Lemma includes_spec p s :
  JS.includes p s = true <-> exists a b, s = a ++ p ++ b.
Proof.
  split.
  - induction s as [|c s IH]; simpl; intros H.
    + rewrite orb_false_r in H. apply startsWith_spec in H as [t Ht].
      exists "", t. exact Ht.
    + apply orb_true_iff in H as [H|H].
      * apply startsWith_spec in H as [t Ht]. exists "", t. exact Ht.
      * destruct (IH H) as (a & b & Hab). exists (String c a), b.
        simpl. now rewrite Hab.
  - intros (a & b & ->). induction a as [|c a IH]; simpl.
    + apply includes_of_startsWith, startsWith_app.
    + rewrite IH. apply orb_true_r.
Qed.

Lemma takeWhile_all cls s :
  Platform.forallb_string cls (Platform.takeWhile cls s) = true.
Proof.
  induction s as [|c s IH]; simpl; [reflexivity|].
  destruct (cls c) eqn:E; simpl; [now rewrite E|reflexivity].
Qed.

(** A greedy run stops at the end of the text or at a code unit outside
    the class. *)
Lemma takeWhile_split cls s :
  exists rest,
    s = Platform.takeWhile cls s ++ rest
    /\ (rest = "" \/ exists c rest', rest = String c rest' /\ cls c = false).
Proof.
  induction s as [|c s (rest & Hs & Hrest)]; simpl.
  - exists "". split; [reflexivity|now left].
  - destruct (cls c) eqn:E.
    + exists rest. split; [simpl; now rewrite <- Hs|exact Hrest].
    + exists (String c s). split; [reflexivity|]. right. now exists c, s.
Qed.

(** What a successful match of [/<prefix>(<cls>+)/] returns. *)
Lemma matchAfter_sound prefix cls s h :
  Platform.matchAfter prefix cls s = Some h ->
  h <> ""
  /\ Platform.forallb_string cls h = true
  /\ exists a b,
       s = a ++ prefix ++ h ++ b
       /\ (b = "" \/ exists c b', b = String c b' /\ cls c = false).
Proof.
  induction s as [|c s IH]; intros H.
  - destruct prefix; simpl in H; discriminate.
  - cbn [Platform.matchAfter] in H.
    destruct (JS.startsWith prefix (String c s)) eqn:Ep.
    + apply startsWith_spec in Ep as [t Ht]. rewrite Ht, dropPrefix_app in H.
      destruct (Platform.takeWhile cls t) as [|x run] eqn:Er.
      * destruct (IH H) as (Hne & Hall & a & b & Hs & Hb).
        split; [exact Hne|]. split; [exact Hall|].
        exists (String c a), b. split; [simpl; now rewrite Hs|exact Hb].
      * injection H as <-. split; [discriminate|].
        split; [rewrite <- Er; apply takeWhile_all|].
        destruct (takeWhile_split cls t) as (rest & Hsplit & Hrest).
        exists "", rest. rewrite Ht, <- Er. simpl.
        split; [now rewrite <- Hsplit|exact Hrest].
    + destruct (IH H) as (Hne & Hall & a & b & Hs & Hb).
      split; [exact Hne|]. split; [exact Hall|].
      exists (String c a), b. split; [simpl; now rewrite Hs|exact Hb].
Qed.

(** When the pattern finds nothing, no occurrence of the prefix is followed
    by a code unit of the class. *)
Lemma matchAfter_none prefix cls s :
  Platform.matchAfter prefix cls s = None ->
  forall a c b, s = a ++ prefix ++ String c b -> cls c = false.
Proof.
  intros H a. revert s H.
  induction a as [|x a IH]; intros s H c b Hs.
  - simpl in Hs. subst s.
    destruct (prefix ++ String c b) as [|y rest] eqn:E.
    + destruct prefix; discriminate.
    + cbn [Platform.matchAfter] in H. rewrite <- E in H.
      rewrite startsWith_app, dropPrefix_app in H. simpl in H.
      destruct (cls c); [discriminate|reflexivity].
  - simpl in Hs. subst s. cbn [Platform.matchAfter] in H.
    refine (IH (a ++ prefix ++ String c b) _ c b eq_refl).
    destruct (if JS.startsWith prefix (String x (a ++ prefix ++ String c b))
              then _ else _); [exact H|discriminate].
Qed.

End StringPrimitives.

(* ===================================================================== *)
(** ** Properties of the URL parser *)
(* ===================================================================== *)

Section UrlParser.

Lemma parseSpreadsheetInput_url url :
  JS.startsWith "http://" url || JS.startsWith "https://" url = true ->
  parseSpreadsheetInput (Some url) = parseGoogleSheetsUrl url.
Proof.
  intros H. unfold parseSpreadsheetInput.
  destruct url as [|c url]; [discriminate|]. simpl JS.truthyOpt. simpl negb.
  cbv iota. rewrite H. reflexivity.
Qed.

Lemma hashGid_sound url h :
  hashGid url = Some h ->
  h <> "" /\ Platform.forallb_string Platform.isDigit h = true
  /\ exists a b, url = a ++ "#gid=" ++ h ++ b.
Proof.
  unfold hashGid. destruct (JS.includes "#gid=" url); [|discriminate].
  intros H. apply matchAfter_sound in H as (Hne & Hall & a & b & Hs & _).
  split; [exact Hne|]. split; [exact Hall|]. now exists a, b.
Qed.

Lemma hashGid_none url :
  hashGid url = None ->
  forall a c b, url = a ++ "#gid=" ++ String c b -> Platform.isDigit c = false.
Proof.
  unfold hashGid. intros H a c b Hs.
  destruct (JS.includes "#gid=" url) eqn:E.
  - exact (matchAfter_none _ _ _ H a c b Hs).
  - assert (JS.includes "#gid=" url = true) as E'
      by (apply includes_spec; exists a, (String c b); exact Hs).
    congruence.
Qed.

End UrlParser.

(** C3, as the code has it. For an http(s) URL that carries a spreadsheet
    id, on the URLs the platform model answers for: a query parameter gid with
    a non-empty value is returned whatever the fragment says; when the query
    has no parameter gid, or has one with an empty value, the result is what
    the fragment search gives, namely the first run of digits that follows
    #gid= in the URL, and null when no #gid= is followed by a digit. *)
Theorem parse_gid_precedence :
  forall url id,
    JS.startsWith "http://" url || JS.startsWith "https://" url = true ->
    Platform.matchAfter "/spreadsheets/d/" isIdChar url = Some id ->
    (forall g,
        Platform.searchParamsGet url "gid" = Platform.ParamValue g ->
        g <> "" ->
        parseSpreadsheetInput (Some url) = Returns (mkParsed id (Some g)))
    /\ (Platform.searchParamsGet url "gid" = Platform.ParamNull
        \/ Platform.searchParamsGet url "gid" = Platform.ParamValue "" ->
        parseSpreadsheetInput (Some url) = Returns (mkParsed id (hashGid url)))
    /\ (forall h,
          hashGid url = Some h ->
          h <> "" /\ Platform.forallb_string Platform.isDigit h = true
          /\ exists a b, url = a ++ "#gid=" ++ h ++ b)
    /\ (hashGid url = None ->
        forall a c b,
          url = a ++ "#gid=" ++ String c b -> Platform.isDigit c = false).
Proof.
  intros url id Hscheme Hid.
  rewrite (parseSpreadsheetInput_url url Hscheme).
  unfold parseGoogleSheetsUrl. rewrite Hid.
  split; [|split; [|split]].
  - intros g Hg Hne. rewrite Hg.
    destruct g; [congruence|reflexivity].
  - intros [Hq|Hq]; rewrite Hq; reflexivity.
  - apply hashGid_sound.
  - apply hashGid_none.
Qed.

(** The theorem at a URL whose query says gid=7 and whose fragment says
    gid=5. *)
Lemma parse_gid_precedence_witness :
  parseSpreadsheetInput
    (Some "https://docs.google.com/spreadsheets/d/abc/edit?gid=7#gid=5")
  = Returns (mkParsed "abc" (Some "7")).
Proof.
  apply (proj1 (parse_gid_precedence
                  "https://docs.google.com/spreadsheets/d/abc/edit?gid=7#gid=5"
                  "abc" eq_refl eq_refl) "7");
    [vm_compute; reflexivity|discriminate].
Defined.

(** C3, as it is stated, fails: in
    https://docs.google.com/spreadsheets/d/abc/edit?gid=#gid=5 the query has a
    parameter gid (with the empty value), the fragment names gid 5, and the
    parser returns 5, not the value of the query parameter. *)
Lemma query_gid_empty_counterexample : ~ query_gid_always_wins.
Proof.
  intros H.
  specialize (H "https://docs.google.com/spreadsheets/d/abc/edit?gid=#gid=5"
                "abc" "" "5" eq_refl eq_refl).
  assert (Hq : Platform.searchParamsGet
                 "https://docs.google.com/spreadsheets/d/abc/edit?gid=#gid=5"
                 "gid" = Platform.ParamValue "") by (vm_compute; reflexivity).
  assert (Hh : hashGid
                 "https://docs.google.com/spreadsheets/d/abc/edit?gid=#gid=5"
               = Some "5") by (vm_compute; reflexivity).
  specialize (H Hq Hh ltac:(discriminate)).
  vm_compute in H. discriminate H.
Qed.

(** C7. A non-empty input that starts with neither http:// nor https:// is
    returned unchanged as the spreadsheet id, with a null gid. *)
Theorem parse_bare_id :
  forall input : string,
    input <> "" ->
    JS.startsWith "http://" input = false ->
    JS.startsWith "https://" input = false ->
    parseSpreadsheetInput (Some input) = Returns (mkParsed input None).
Proof.
  intros input Hne Hhttp Hhttps. unfold parseSpreadsheetInput.
  destruct input as [|c input]; [congruence|].
  simpl JS.truthyOpt. simpl negb. cbv iota.
  rewrite Hhttp, Hhttps. reflexivity.
Qed.

(** The theorem at the id of the parser's own documentation. *)
Lemma parse_bare_id_witness :
  parseSpreadsheetInput (Some "1FmDx17Gm2aEa0andQE_JP8qcJD5XfeYhIABvZeFX_Zo")
  = Returns (mkParsed "1FmDx17Gm2aEa0andQE_JP8qcJD5XfeYhIABvZeFX_Zo" None).
Proof.
  apply (parse_bare_id "1FmDx17Gm2aEa0andQE_JP8qcJD5XfeYhIABvZeFX_Zo");
    [discriminate|reflexivity|reflexivity].
Defined.

(* ===================================================================== *)
(** ** Properties of the search scan *)
(* ===================================================================== *)

Section SearchScan.

Variables (matchType searchLower : string).

Let hit (p : Z * Z * cell) : bool :=
  isMatch matchType searchLower (cellText (snd p)).

Let inRow (r : Z) (jc : Z * cell) : Z * Z * cell := (r, fst jc, snd jc).

(** The inner loop over one row, from column [i] on. *)
Lemma searchCells_spec (r : Z) (cells : list cell) :
  forall (i : Z) (st : scanState),
    forEachFrom (searchCellCallback matchType searchLower r) i cells st =
    mkScan
      (matches st ++ map matchAt (filter hit (map (inRow r) (indexedFrom i cells))))
      (visited st ++ map fst (map (inRow r) (indexedFrom i cells))).
Proof.
  induction cells as [|c cells IH]; intros i st; simpl.
  - rewrite !app_nil_r. destruct st; reflexivity.
  - rewrite IH. unfold searchCellCallback, hit at 2, inRow at 2. simpl.
    destruct (isMatch matchType searchLower (cellText c)); simpl;
      rewrite <- !app_assoc; reflexivity.
Qed.

(** The [return] at the end of the outer callback changes nothing. *)
Lemma searchRowCallback_scans_whole_row maxResults st r rowIdx :
  searchRowCallback matchType searchLower maxResults st r rowIdx =
  forEach (searchCellCallback matchType searchLower rowIdx) r st.
Proof.
  unfold searchRowCallback.
  destruct (_ >=? maxResults); reflexivity.
Qed.

(** The outer loop over the rows, from row [i] on. *)
Lemma searchRows_spec (maxResults : Z) (grid : list (list cell)) :
  forall (i : Z) (st : scanState),
    let cells :=
      flat_map (fun ir => map (inRow (fst ir)) (indexedFrom 0 (snd ir)))
        (indexedFrom i grid) in
    forEachFrom (searchRowCallback matchType searchLower maxResults) i grid st =
    mkScan (matches st ++ map matchAt (filter hit cells))
           (visited st ++ map fst cells).
Proof.
  induction grid as [|r grid IH]; intros i st; simpl.
  - rewrite !app_nil_r. destruct st; reflexivity.
  - rewrite IH, searchRowCallback_scans_whole_row.
    unfold forEach. rewrite searchCells_spec. simpl.
    rewrite filter_app, !map_app, <- !app_assoc. reflexivity.
Qed.

End SearchScan.

(** The scan visits every cell of every row, in row-major order, and
    collects every match, whatever [maxResults] is. *)
Lemma searchScan_spec (args : searchArgs) (grid : list (list cell)) :
  searchScan args grid =
  mkScan
    (allMatches (searchMatchType args)
       (JS.toLowerCase (searchArg_searchText args)) grid)
    (map fst (rowMajorCells grid)).
Proof.
  unfold searchScan, forEach. rewrite searchRows_spec. reflexivity.
Qed.

Lemma isMatch_exact searchLower cellValue :
  isMatch "exact" searchLower cellValue = true <->
  JS.toLowerCase cellValue = searchLower.
Proof. unfold isMatch. simpl. apply String.eqb_eq. Qed.

Lemma isMatch_contains matchType searchLower cellValue :
  matchType <> "exact" ->
  (isMatch matchType searchLower cellValue = true <->
   exists a b, JS.toLowerCase cellValue = a ++ searchLower ++ b).
Proof.
  intros Hmt. unfold isMatch.
  apply String.eqb_neq in Hmt. rewrite Hmt. apply includes_spec.
Qed.

(** What the [search-values] branch answers once the grid is fetched. *)
Lemma searchValuesTool_run api log args p vr :
  parseSpreadsheetInput (searchArg_spreadsheetId args) = Returns p ->
  values_get api (spreadsheetId p) (searchArg_sheetName args ++ "!A1:ZZ10000")
    = Returns vr ->
  let all := allMatches (searchMatchType args)
               (JS.toLowerCase (searchArg_searchText args)) in
  searchValuesTool args api log =
  (Returns
     (mkToolResult
        (match values vr with
         | None | Some [] => SearchNoData (searchArg_sheetName args)
         | Some grid =>
             let total := Z.of_nat (List.length (all grid)) in
             if total =? 0
             then SearchNoMatches (searchArg_searchText args)
                    (searchMatchType args) (searchArg_sheetName args)
             else SearchFound total (1 <? total) (searchArg_searchText args)
                    (searchMatchType args) (searchArg_sheetName args)
                    (if searchMaxResults args <? total
                     then Some (searchMaxResults args) else None)
                    (map (fun m => (cellRef m, value m))
                       (JS.slice0 (searchMaxResults args) (all grid)))
         end)
        false),
   (log ++ [CallValuesGet (spreadsheetId p)
              (searchArg_sheetName args ++ "!A1:ZZ10000")])%list).
Proof.
  intros Hp Hv all. unfold searchValuesTool, bind, lift, getValues, ret.
  rewrite Hp, Hv.
  destruct (values vr) as [[|r grid]|]; try reflexivity.
  rewrite searchScan_spec. cbn [matches]. fold all.
  destruct (Z.of_nat (List.length (all (r :: grid))) =? 0); reflexivity.
Qed.

(** C1. With a positive maxResults the cap bears on what is reported, not on
    the scan: the scan runs its inner callback on every cell of every row, in
    row-major order, and collects every match of the grid; the answer counts
    all of them and lists the first maxResults of them, in that order. *)
Theorem search_values_cap_is_on_report_only :
  forall (api : GoogleApi) (log : list apiCall) (args : searchArgs)
         (p : parsedInput) (vr : ValueRange) (grid : list (list cell)) (m : Z),
    parseSpreadsheetInput (searchArg_spreadsheetId args) = Returns p ->
    values_get api (spreadsheetId p) (searchArg_sheetName args ++ "!A1:ZZ10000")
      = Returns vr ->
    values vr = Some grid ->
    searchArg_maxResults args = Some m ->
    0 < m ->
    let all := allMatches (searchMatchType args)
                 (JS.toLowerCase (searchArg_searchText args)) grid in
    let total := Z.of_nat (List.length all) in
    let listed := firstn (Z.to_nat m) all in
    visited (searchScan args grid) = map fst (rowMajorCells grid)
    /\ matches (searchScan args grid) = all
    /\ (List.length listed <= Z.to_nat m)%nat
    /\ fst (searchValuesTool args api log) =
       Returns
         (mkToolResult
            (match grid with
             | [] => SearchNoData (searchArg_sheetName args)
             | _ :: _ =>
                 if total =? 0
                 then SearchNoMatches (searchArg_searchText args)
                        (searchMatchType args) (searchArg_sheetName args)
                 else SearchFound total (1 <? total)
                        (searchArg_searchText args) (searchMatchType args)
                        (searchArg_sheetName args)
                        (if m <? total then Some m else None)
                        (map (fun x => (cellRef x, value x)) listed)
             end)
            false).
Proof.
  intros api log args p vr grid m Hp Hv Hgrid Hmax Hpos all total listed.
  rewrite searchScan_spec. cbn [visited matches].
  split; [reflexivity|]. split; [reflexivity|].
  split; [apply firstn_le_length|].
  rewrite (searchValuesTool_run api log args p vr Hp Hv). cbn [fst].
  rewrite Hgrid.
  assert (Hm : searchMaxResults args = m).
  { unfold searchMaxResults. rewrite Hmax.
    destruct (Z.eqb_spec m 0); [lia|reflexivity]. }
  rewrite Hm. unfold JS.slice0.
  destruct (Z.ltb_spec m 0); [lia|].
  destruct grid; reflexivity.
Qed.

(** A grid, fetched for the sheet "Data", whose first row alone holds three
    matches of "a": with maxResults 1 the answer counts all four matches of
    the grid and lists the first one. *)
Lemma search_values_cap_is_on_report_only_witness :
  fst (searchValuesTool (mkSearchArgs (Some "abc") "Data" "a" None (Some 1))
         (apiServing (mkValueRange None (Some lettersGrid))) []) =
  Returns (mkToolResult
             (SearchFound 4 true "a" "contains" "Data" (Some 1) [("A1", "a")])
             false).
Proof.
  exact (proj2 (proj2 (proj2
    (search_values_cap_is_on_report_only
       (apiServing (mkValueRange None (Some lettersGrid))) []
       (mkSearchArgs (Some "abc") "Data" "a" None (Some 1))
       (mkParsed "abc" None) (mkValueRange None (Some lettersGrid))
       lettersGrid 1 eq_refl eq_refl eq_refl eq_refl eq_refl)))).
Defined.



(* ===================================================================== *)
(** ** Properties of the sheet tools *)
(* ===================================================================== *)

Section SheetTools.

Lemma parse_returns_truthy input p :
  parseSpreadsheetInput input = Returns p -> JS.truthyOpt input = true.
Proof.
  unfold parseSpreadsheetInput.
  destruct (JS.truthyOpt input); [reflexivity|discriminate].
Qed.

Lemma gidOrArgument_none fromUrl argument :
  JS.truthyOpt fromUrl = false -> JS.truthyOpt argument = false ->
  JS.truthyOpt (gidOrArgument fromUrl argument) = false.
Proof.
  intros Hu Ha. unfold gidOrArgument. rewrite Ha, andb_false_r. exact Hu.
Qed.


(** [find] returns the first element that passes the test. *)
Lemma find_first {A : Type} (f : A -> bool) (l : list A) (x : A) :
  List.find f l = Some x ->
  f x = true
  /\ exists pre post,
       l = (pre ++ x :: post)%list /\ forall y, In y pre -> f y = false.
Proof.
  induction l as [|a l IH]; simpl; [discriminate|].
  destruct (f a) eqn:Ea.
  - intros [= ->]. split; [exact Ea|].
    exists [], l. split; [reflexivity|]. intros y [].
  - intros H. destruct (IH H) as (Hx & pre & post & Hl & Hpre).
    split; [exact Hx|]. exists (a :: pre), post.
    split; [simpl; now rewrite Hl|].
    intros y [<-|Hy]; [exact Ea|now apply Hpre].
Qed.

Lemma find_is_some {A : Type} (f : A -> bool) (l : list A) (x : A) :
  In x l -> f x = true -> exists y, List.find f l = Some y.
Proof.
  intros Hin Hx. destruct (List.find f l) as [y|] eqn:E; [now exists y|].
  pose proof (find_none f l E x Hin). congruence.
Qed.

Lemma find_is_none {A : Type} (f : A -> bool) (l : list A) :
  (forall x, In x l -> f x = false) -> List.find f l = None.
Proof.
  induction l as [|a l IH]; simpl; intros H; [reflexivity|].
  rewrite (H a (or_introl eq_refl)). apply IH.
  intros x Hx. apply H. now right.
Qed.



End SheetTools.

(** C5. Called with neither a spreadsheetId nor a url (absent or empty), the
    get-sheet-by-gid tool answers with an error-flagged result and sends
    nothing to Google: the log of requests is unchanged. The same holds when
    the identifier is parsed but neither the URL nor the gid argument gives a
    gid; and when the identifier is a URL that the parser refuses, the handler
    throws before any request and the registered wrapper answers with an
    error-flagged result. *)
Theorem get_sheet_by_gid_validation_makes_no_call :
  forall (api : GoogleApi) (log : list apiCall) (args : gidArgs),
    (JS.truthyOpt (gidArg_spreadsheetId args) = false ->
     JS.truthyOpt (gidArg_url args) = false ->
     getSheetByGidTool args api log =
     (Returns (mkToolResult (MissingSpreadsheetId args) true), log))
    /\ (forall p,
          parseSpreadsheetInput
            (JS.orElse (gidArg_spreadsheetId args) (gidArg_url args))
            = Returns p ->
          JS.truthyOpt (gid p) = false ->
          JS.truthyOpt (gidArg_gid args) = false ->
          getSheetByGidTool args api log =
          (Returns (mkToolResult
                      (NoGidProvided (gidArg_spreadsheetId args)
                         (gidArg_gid args))
                      true),
           log))
    /\ (forall e,
          JS.truthyOpt
            (JS.orElse (gidArg_spreadsheetId args) (gidArg_url args)) = true ->
          parseSpreadsheetInput
            (JS.orElse (gidArg_spreadsheetId args) (gidArg_url args))
            = Throws e ->
          serveTool "get-sheet-by-gid" (getSheetByGidTool args) api log =
          (Returns (mkToolResult (ErrorExecuting "get-sheet-by-gid" e) true),
           log)).
Proof.
  intros api log args. split; [|split].
  - intros Hid Hurl. unfold getSheetByGidTool, JS.orElse.
    rewrite Hid, Hurl. reflexivity.
  - intros p Hp Hgid Harg. unfold getSheetByGidTool.
    rewrite (parse_returns_truthy _ _ Hp). cbn [negb].
    unfold bind, lift. rewrite Hp.
    pose proof (gidOrArgument_none _ _ Hgid Harg) as Hnone.
    destruct (gidOrArgument (gid p) (gidArg_gid args)) as [g|];
      [|reflexivity].
    simpl in Hnone. rewrite Hnone. reflexivity.
  - intros e Hin Hp. unfold serveTool, getSheetByGidTool.
    rewrite Hin. cbn [negb]. unfold bind, lift. rewrite Hp. reflexivity.
Qed.

(** The theorem on a call without any argument, and on a call with a bare
    id and no gid. *)
Lemma get_sheet_by_gid_validation_makes_no_call_witness :
  getSheetByGidTool (mkGidArgs None None None) (apiDescribing twoSheets) [] =
    (Returns (mkToolResult (MissingSpreadsheetId (mkGidArgs None None None))
                true), [])
  /\ getSheetByGidTool (mkGidArgs (Some "abc") None None)
       (apiDescribing twoSheets) [] =
    (Returns (mkToolResult (NoGidProvided (Some "abc") None) true), []).
Proof.
  split.
  - exact (proj1 (get_sheet_by_gid_validation_makes_no_call
                    (apiDescribing twoSheets) []
                    (mkGidArgs None None None)) eq_refl eq_refl).
  - exact (proj1 (proj2 (get_sheet_by_gid_validation_makes_no_call
                    (apiDescribing twoSheets) []
                    (mkGidArgs (Some "abc") None None)))
             (mkParsed "abc" None) eq_refl eq_refl eq_refl).
Defined.



(** C10. The preview asks Google for rows 1 to [previewNumRows]: 10 when
    numRows is absent or 0, the smaller of numRows and 50 otherwise, never more
    than 50; this one request is the only one made, and none is made when the
    identifier does not parse. *)
Theorem preview_requests_at_most_50_rows :
  forall (api : GoogleApi) (log : list apiCall) (args : previewArgs),
    previewNumRows args <= 50
    /\ (previewArg_numRows args = None \/ previewArg_numRows args = Some 0 ->
        previewNumRows args = 10)
    /\ (forall n, previewArg_numRows args = Some n -> n <> 0 ->
                  previewNumRows args = Z.min n 50)
    /\ (forall p,
          parseSpreadsheetInput (previewArg_spreadsheetId args) = Returns p ->
          snd (getSheetPreviewTool args api log) =
          (log ++ [CallValuesGet (spreadsheetId p)
                     (previewArg_sheetName args ++ "!A1:ZZ"
                      ++ JS.numberToString (previewNumRows args))])%list)
    /\ ((forall p, parseSpreadsheetInput (previewArg_spreadsheetId args)
                   <> Returns p) ->
        snd (getSheetPreviewTool args api log) = log).
Proof.
  intros api log args. split; [|split; [|split; [|split]]].
  - unfold previewNumRows. apply Z.le_min_r.
  - unfold previewNumRows. intros [H|H]; rewrite H; reflexivity.
  - unfold previewNumRows. intros n H Hn. rewrite H.
    destruct (Z.eqb_spec n 0); [contradiction|reflexivity].
  - intros p Hp. unfold getSheetPreviewTool, bind, lift, getValues, ret.
    rewrite Hp.
    destruct (values_get api _ _) as [vr| |]; try reflexivity.
    destruct (values vr) as [[|r grid]|]; reflexivity.
  - intros Hp. unfold getSheetPreviewTool, bind, lift.
    destruct (parseSpreadsheetInput (previewArg_spreadsheetId args)) as [p| |];
      [now contradiction (Hp p)|reflexivity|reflexivity].
Qed.

(** The theorem on a request for 100 rows of "Sheet1". *)
Lemma preview_requests_at_most_50_rows_witness :
  snd (getSheetPreviewTool (mkPreviewArgs (Some "abc") "Sheet1" (Some 100))
         (apiServing (mkValueRange None None)) [])
  = [CallValuesGet "abc" "Sheet1!A1:ZZ50"].
Proof.
  exact (proj1 (proj2 (proj2 (proj2
           (preview_requests_at_most_50_rows
              (apiServing (mkValueRange None None)) []
              (mkPreviewArgs (Some "abc") "Sheet1" (Some 100))))))
           (mkParsed "abc" None) eq_refl).
Defined.

(* ===================================================================== *)
(** ** Properties of the token cache *)
(* ===================================================================== *)

Section TokenCache.

Lemma tokenIsFresh_spec w st :
  0 <= now_at_check w ->
  (GoogleSheetsClient.tokenIsFresh w st = true <->
   exists token expiry,
     accessToken st = Some token /\ token <> ""
     /\ tokenExpiry st = Some expiry
     /\ now_at_check w < expiry - 300000).
Proof.
  intros Hnow. unfold GoogleSheetsClient.tokenIsFresh. split.
  - intros H. apply andb_true_iff in H as [Htok Hexp].
    destruct (accessToken st) as [token|]; [|discriminate].
    destruct (tokenExpiry st) as [expiry|]; [|discriminate].
    apply andb_true_iff in Hexp as [_ Hlt]. apply Z.ltb_lt in Hlt.
    exists token, expiry. repeat split; try assumption.
    intros ->. discriminate.
  - intros (token & expiry & -> & Hne & -> & Hlt).
    apply andb_true_iff. split.
    + destruct token; [congruence|reflexivity].
    + apply andb_true_iff. split.
      * destruct (Z.eqb_spec expiry 0); [lia|reflexivity].
      * apply Z.ltb_lt. exact Hlt.
Qed.

End TokenCache.

(** C8. With the clock at or after the epoch, getAccessToken takes the
    cached path exactly when a non-empty token is stored and the clock reads
    less than the stored expiry minus 300000 ms; on that path it returns the
    stored token, sends nothing and leaves the client as it is. In every other
    case, once the assertion is signed and the token URI read, it posts the
    exchange; a 200 reply with a token is stored, with the expiry set to the
    clock at the reply plus expires_in seconds, and the new token returned. *)
Theorem get_access_token_cache :
  forall (w : World) (st : clientState) (log : list netEvent),
    0 <= now_at_check w ->
    (GoogleSheetsClient.tokenIsFresh w st = true <->
     exists token expiry,
       accessToken st = Some token /\ token <> ""
       /\ tokenExpiry st = Some expiry
       /\ now_at_check w < expiry - 300000)
    /\ (GoogleSheetsClient.tokenIsFresh w st = true ->
        GoogleSheetsClient.getAccessToken w st log
        = (Resolved (accessToken st), st, log))
    /\ (GoogleSheetsClient.tokenIsFresh w st = false ->
        forall jwt,
          createJWT w = Done jwt ->
          urlParses w (token_uri st) = true ->
          let log' :=
            (log ++ [TokenExchange (token_uri st)
                       (GoogleSheetsClient.tokenPostData jwt)])%list in
          snd (GoogleSheetsClient.getAccessToken w st log) = log'
          /\ forall text token expires,
               tokenEndpoint w (GoogleSheetsClient.tokenPostData jwt)
               = TokenResponse 200 text (BodyObject token expires) ->
               GoogleSheetsClient.getAccessToken w st log
               = (Resolved token,
                  mkClient (apiUrl st) (token_uri st) token
                    (option_map (fun e => now_at_reply w + e * 1000) expires),
                  log')).
Proof.
  intros w st log Hnow. split; [apply tokenIsFresh_spec; exact Hnow|]. split.
  - intros Hfresh. unfold GoogleSheetsClient.getAccessToken.
    rewrite Hfresh. reflexivity.
  - intros Hstale jwt Hjwt Hurl log'.
    unfold GoogleSheetsClient.getAccessToken.
    rewrite Hstale, Hjwt, Hurl. cbn [negb]. fold log'. split.
    + destruct (tokenEndpoint w _) as [statusCode text parsed|m];
        [|reflexivity].
      destruct (statusCode =? 200); [|reflexivity].
      destruct parsed; reflexivity.
    + intros text token expires Hreply. rewrite Hreply. reflexivity.
Qed.

(** The theorem on a client whose token is about to expire: the clock reads
    1000000, the stored expiry is 1200000 (less than five minutes ahead), and
    the endpoint grants the token "new" for 3600 seconds at clock 1000500. *)
Lemma get_access_token_cache_witness :
  0 <= now_at_check (worldReplying 1000000 1000500 "new" (HttpError "unused"))
  /\ GoogleSheetsClient.getAccessToken
       (worldReplying 1000000 1000500 "new" (HttpError "unused"))
       (clientWith (Some "old") (Some 1200000)) []
     = (Resolved (Some "new"), clientWith (Some "new") (Some 4600500),
        [TokenExchange "https://oauth2.googleapis.com/token"
           (GoogleSheetsClient.tokenPostData "jwt")]).
Proof.
  assert (Hnow : 0 <= now_at_check
                        (worldReplying 1000000 1000500 "new" (HttpError "unused")))
    by (simpl; lia).
  split; [exact Hnow|].
  exact (proj2 (proj2 (proj2 (get_access_token_cache
                                (worldReplying 1000000 1000500 "new"
                                   (HttpError "unused"))
                                (clientWith (Some "old") (Some 1200000)) [] Hnow))
                  eq_refl "jwt" eq_refl eq_refl)
           "{}" (Some "new") (Some 3600) eq_refl).
Defined.

(* ===================================================================== *)
(** ** Properties of the response envelope *)
(* ===================================================================== *)

Section Envelope.



















End Envelope.



(* ===================================================================== *)
(** ** Further properties of the URL parser *)
(* ===================================================================== *)

Section UrlParserMore.

Lemma forallb_string_app p s t :
  Platform.forallb_string p (s ++ t)
  = Platform.forallb_string p s && Platform.forallb_string p t.
Proof.
  induction s as [|c s IH]; simpl; [reflexivity|].
  rewrite IH. apply andb_assoc.
Qed.

Lemma forallb_string_impl (p q : ascii -> bool) s :
  (forall c, p c = true -> q c = true) ->
  Platform.forallb_string p s = true -> Platform.forallb_string q s = true.
Proof.
  intros Hpq. induction s as [|c s IH]; simpl; [reflexivity|].
  intros H. apply andb_true_iff in H as [Hc Hs].
  rewrite (Hpq c Hc), (IH Hs). reflexivity.
Qed.

Lemma isIdChar_plain c : isIdChar c = true -> isPlain c = true.
Proof.
  destruct c as [b0 b1 b2 b3 b4 b5 b6 b7].
  destruct b0, b1, b2, b3, b4, b5, b6, b7; vm_compute;
    intros H; try reflexivity; discriminate H.
Qed.

Lemma isDigit_idChar c : Platform.isDigit c = true -> isIdChar c = true.
Proof.
  intros H. unfold isIdChar. rewrite H.
  rewrite orb_true_r. reflexivity.
Qed.

Lemma isPlain_not c x :
  oneOf "#?&+%/=" x = true -> isPlain c = true -> Ascii.eqb c x = false.
Proof.
  intros Hx Hc. destruct (Ascii.eqb_spec c x) as [->|]; [|reflexivity].
  unfold isPlain in Hc. rewrite Hx in Hc.
  rewrite andb_false_r in Hc. discriminate.
Qed.

Lemma isPlain_printable c : isPlain c = true -> Platform.isPrintable c = true.
Proof. unfold isPlain. intros H. now apply andb_true_iff in H. Qed.

Lemma plain_without c s :
  oneOf "#?&+%/=" c = true ->
  Platform.forallb_string isPlain s = true -> without c s = true.
Proof.
  intros Hc. apply forallb_string_impl. intros x Hx.
  rewrite (isPlain_not x c Hc Hx). reflexivity.
Qed.

Lemma without_app c s t : without c (s ++ t) = without c s && without c t.
Proof. apply forallb_string_app. Qed.

Lemma before_without c s t :
  without c s = true ->
  Platform.before c (s ++ t) = s ++ Platform.before c t.
Proof.
  induction s as [|x s IH]; simpl; [reflexivity|]. intros H.
  apply andb_true_iff in H as [Hx Hs]. apply negb_true_iff in Hx.
  rewrite Hx, (IH Hs). reflexivity.
Qed.

Lemma before_whole c s : without c s = true -> Platform.before c s = s.
Proof.
  intros H. rewrite <- (string_app_nil_r s) at 1.
  rewrite (before_without c s "" H). apply string_app_nil_r.
Qed.

Lemma before_cut c s t :
  without c s = true -> Platform.before c (s ++ String c t) = s.
Proof.
  intros H. rewrite (before_without c s _ H). simpl.
  rewrite Ascii.eqb_refl. apply string_app_nil_r.
Qed.

Lemma after_without c s t :
  without c s = true -> Platform.after c (s ++ t) = Platform.after c t.
Proof.
  induction s as [|x s IH]; simpl; [reflexivity|]. intros H.
  apply andb_true_iff in H as [Hx Hs]. apply negb_true_iff in Hx.
  rewrite Hx. exact (IH Hs).
Qed.

Lemma after_none c s : without c s = true -> Platform.after c s = None.
Proof.
  intros H. rewrite <- (string_app_nil_r s).
  rewrite (after_without c s "" H). reflexivity.
Qed.

Lemma after_cut c s t :
  without c s = true -> Platform.after c (s ++ String c t) = Some t.
Proof.
  intros H. rewrite (after_without c s _ H). simpl.
  rewrite Ascii.eqb_refl. reflexivity.
Qed.

Lemma split_without c s : without c s = true -> Platform.split c s = [s].
Proof.
  induction s as [|x s IH]; simpl; [reflexivity|]. intros H.
  apply andb_true_iff in H as [Hx Hs]. apply negb_true_iff in Hx.
  rewrite Hx, (IH Hs). reflexivity.
Qed.

Lemma plusToSpace_plain s :
  Platform.forallb_string isPlain s = true -> Platform.plusToSpace s = s.
Proof.
  induction s as [|c s IH]; simpl; [reflexivity|]. intros H.
  apply andb_true_iff in H as [Hc Hs].
  rewrite (isPlain_not c "+"%char eq_refl Hc), (IH Hs). reflexivity.
Qed.

Lemma percentDecode_plain s :
  Platform.forallb_string isPlain s = true -> Platform.percentDecode s = Some s.
Proof.
  induction s as [|c s IH]; [reflexivity|]. intros H. simpl in H.
  apply andb_true_iff in H as [Hc Hs].
  cbn [Platform.percentDecode].
  rewrite (isPlain_not c "%"%char eq_refl Hc), (IH Hs). reflexivity.
Qed.

Lemma takeWhile_app_stop cls s t :
  Platform.forallb_string cls s = true ->
  Platform.takeWhile cls t = "" ->
  Platform.takeWhile cls (s ++ t) = s.
Proof.
  intros Hs Ht. induction s as [|c s IH]; simpl; [exact Ht|].
  simpl in Hs. apply andb_true_iff in Hs as [Hc Hs].
  rewrite Hc, (IH Hs). reflexivity.
Qed.

(** The search for [#gid=] runs over a text without [#] and finds nothing
    in it. *)
Lemma matchAfter_hash_skip cls s t :
  without "#"%char s = true ->
  Platform.matchAfter "#gid=" cls (s ++ t) = Platform.matchAfter "#gid=" cls t.
Proof.
  induction s as [|c s IH]; [reflexivity|]. intros H. simpl in H.
  apply andb_true_iff in H as [Hc Hs]. apply negb_true_iff in Hc.
  change (String c s ++ t) with (String c (s ++ t)).
  cbn [Platform.matchAfter JS.startsWith].
  rewrite Ascii.eqb_sym, Hc. simpl. exact (IH Hs).
Qed.

Lemma includes_hash_without s :
  without "#"%char s = true -> JS.includes "#gid=" s = false.
Proof.
  induction s as [|c s IH]; [reflexivity|]. intros H. simpl in H.
  apply andb_true_iff in H as [Hc Hs]. apply negb_true_iff in Hc.
  cbn [JS.includes JS.startsWith].
  rewrite Ascii.eqb_sym, Hc. simpl. exact (IH Hs).
Qed.

End UrlParserMore.

Lemma matchAfter_cons_miss prefix cls c s :
  JS.startsWith prefix (String c s) = false ->
  Platform.matchAfter prefix cls (String c s) = Platform.matchAfter prefix cls s.
Proof. intros H. cbn [Platform.matchAfter]. rewrite H. reflexivity. Qed.

Lemma matchAfter_hit prefix cls h t :
  h <> "" ->
  Platform.forallb_string cls h = true ->
  Platform.takeWhile cls t = "" ->
  Platform.matchAfter prefix cls (prefix ++ h ++ t) = Some h.
Proof.
  intros Hne Hall Hstop.
  destruct (prefix ++ h ++ t) as [|c s] eqn:E.
  - destruct prefix; [destruct h; [contradiction|discriminate]|discriminate].
  - cbn [Platform.matchAfter].
    rewrite <- E, startsWith_app, dropPrefix_app.
    rewrite (takeWhile_app_stop cls h t Hall Hstop).
    destruct h; [contradiction|reflexivity].
Qed.

Section SheetsUrl.

Variable id : string.
Hypothesis id_nonempty : id <> "".
Hypothesis id_chars : Platform.forallb_string isIdChar id = true.

Lemma id_plain : Platform.forallb_string isPlain id = true.
Proof. exact (forallb_string_impl _ _ id isIdChar_plain id_chars). Qed.

Lemma sheetsUrl_id tail :
  Platform.matchAfter "/spreadsheets/d/" isIdChar (sheetsUrl id tail) = Some id.
Proof.
  unfold sheetsUrl. set (rest := id ++ "/edit" ++ tail).
  cbn [append].
  repeat (rewrite matchAfter_cons_miss by reflexivity).
  apply (matchAfter_hit "/spreadsheets/d/" isIdChar id ("/edit" ++ tail));
    [exact id_nonempty|exact id_chars|reflexivity].
Qed.

Lemma sheetsUrl_modelled tail :
  Platform.forallb_string Platform.isPrintable tail = true ->
  Platform.modelled (sheetsUrl id tail) = true.
Proof.
  intros Htail. unfold Platform.modelled.
  assert (Hauth : Platform.authority (sheetsUrl id tail) = "docs.google.com")
    by reflexivity.
  rewrite Hauth.
  assert (Hprint : Platform.forallb_string Platform.isPrintable
                     (sheetsUrl id tail) = true).
  { unfold sheetsUrl. rewrite !forallb_string_app, Htail.
    rewrite (forallb_string_impl _ _ id
               (fun c H => isPlain_printable c (isIdChar_plain c H)) id_chars).
    reflexivity. }
  rewrite Hprint. reflexivity.
Qed.

(** The address up to [/edit] has no [#] and no [?]. *)
Lemma sheetsUrl_stem_without c :
  c = "#"%char \/ c = "?"%char -> without c (sheetsStem id) = true.
Proof.
  intros Hc. unfold sheetsStem. rewrite !without_app.
  rewrite (plain_without c id); [|destruct Hc as [->| ->]; reflexivity|exact id_plain].
  destruct Hc as [->| ->]; reflexivity.
Qed.

Lemma sheetsUrl_assoc tail : sheetsUrl id tail = sheetsStem id ++ tail.
Proof. unfold sheetsUrl, sheetsStem. now rewrite !string_app_assoc. Qed.

Variable g : string.
Hypothesis g_nonempty : g <> "".
Hypothesis g_digits : Platform.forallb_string Platform.isDigit g = true.

Lemma g_plain : Platform.forallb_string isPlain g = true.
Proof.
  apply (forallb_string_impl Platform.isDigit); [|exact g_digits].
  intros c Hc. apply isIdChar_plain, isDigit_idChar, Hc.
Qed.

(** The query [gid=<digits>] reads as the one pair it is. *)
Lemma gid_query_pairs :
  Platform.decodePairs (Platform.split "&"%char ("gid=" ++ g))
  = Some [("gid", g)].
Proof.
  rewrite split_without.
  - cbn [Platform.decodePairs append]. unfold Platform.decodePair.
    cbn [Platform.before Platform.after Ascii.eqb Bool.eqb].
    rewrite (plusToSpace_plain g g_plain), (percentDecode_plain g g_plain).
    reflexivity.
  - rewrite without_app, (plain_without "&"%char g eq_refl g_plain). reflexivity.
Qed.

Lemma searchParamsGet_query tail :
  Platform.forallb_string Platform.isPrintable tail = true ->
  Platform.queryOf (sheetsUrl id tail) = "gid=" ++ g ->
  Platform.searchParamsGet (sheetsUrl id tail) "gid" = Platform.ParamValue g.
Proof.
  intros Htail Hq. unfold Platform.searchParamsGet.
  rewrite (sheetsUrl_modelled tail Htail), Hq, gid_query_pairs. reflexivity.
Qed.

Lemma searchParamsGet_no_query tail :
  Platform.forallb_string Platform.isPrintable tail = true ->
  Platform.queryOf (sheetsUrl id tail) = "" ->
  Platform.searchParamsGet (sheetsUrl id tail) "gid" = Platform.ParamNull.
Proof.
  intros Htail Hq. unfold Platform.searchParamsGet.
  rewrite (sheetsUrl_modelled tail Htail), Hq. reflexivity.
Qed.

End SheetsUrl.

(** X: the addresses Google Sheets hands out. For a non-empty id over
    [a-zA-Z0-9-_] and a non-empty gid of digits, the parser returns the id with
    no gid for .../d/<id>/edit, and the id with the gid for
    .../edit?gid=<gid>, for .../edit#gid=<gid> and for
    .../edit?gid=<gid>#gid=<other digits>. *)
Theorem parse_sheets_addresses :
  forall id g h : string,
    id <> "" -> Platform.forallb_string isIdChar id = true ->
    g <> "" -> Platform.forallb_string Platform.isDigit g = true ->
    Platform.forallb_string Platform.isDigit h = true ->
    parseSpreadsheetInput (Some (sheetsUrl id "")) = Returns (mkParsed id None)
    /\ parseSpreadsheetInput (Some (sheetsUrl id ("?gid=" ++ g)))
       = Returns (mkParsed id (Some g))
    /\ parseSpreadsheetInput (Some (sheetsUrl id ("#gid=" ++ g)))
       = Returns (mkParsed id (Some g))
    /\ parseSpreadsheetInput (Some (sheetsUrl id ("?gid=" ++ g ++ "#gid=" ++ h)))
       = Returns (mkParsed id (Some g)).
Proof.
  intros id g h Hid Hidc Hg Hgd Hhd.
  pose proof (g_plain g Hgd) as Hgp.
  assert (Hhp : Platform.forallb_string isPlain h = true).
  { apply (forallb_string_impl Platform.isDigit); [|exact Hhd].
    intros c Hc. apply isIdChar_plain, isDigit_idChar, Hc. }
  assert (Hprint : forall s, Platform.forallb_string isPlain s = true ->
                             Platform.forallb_string Platform.isPrintable s = true).
  { intros s. apply forallb_string_impl. exact isPlain_printable. }
  pose proof (sheetsUrl_stem_without id Hidc "#"%char (or_introl eq_refl)) as Hhash.
  pose proof (sheetsUrl_stem_without id Hidc "?"%char (or_intror eq_refl)) as Hquest.
  assert (Hrun : forall tail, parseSpreadsheetInput (Some (sheetsUrl id tail))
                              = parseGoogleSheetsUrl (sheetsUrl id tail)).
  { intros tail. apply parseSpreadsheetInput_url. reflexivity. }
  split; [|split; [|split]]; rewrite Hrun; unfold parseGoogleSheetsUrl;
    rewrite (sheetsUrl_id id Hid Hidc).
  - rewrite (searchParamsGet_no_query id Hidc "" eq_refl).
    + unfold hashGid. rewrite includes_hash_without; [reflexivity|].
      rewrite sheetsUrl_assoc, without_app, Hhash. reflexivity.
    + unfold Platform.queryOf. rewrite sheetsUrl_assoc, string_app_nil_r.
      rewrite (before_whole _ _ Hhash), (after_none _ _ Hquest). reflexivity.
  - rewrite (searchParamsGet_query id Hidc g Hgd ("?gid=" ++ g)).
    + destruct g; [contradiction|reflexivity].
    + rewrite forallb_string_app, (Hprint g Hgp). reflexivity.
    + unfold Platform.queryOf. rewrite sheetsUrl_assoc.
      rewrite before_whole.
      * change ("?gid=" ++ g) with (String "?" ("gid=" ++ g)).
        rewrite (after_cut _ _ _ Hquest). reflexivity.
      * rewrite !without_app, Hhash,
          (plain_without "#"%char g eq_refl Hgp). reflexivity.
  - rewrite (searchParamsGet_no_query id Hidc ("#gid=" ++ g)).
    + unfold hashGid.
      assert (Hinc : JS.includes "#gid=" (sheetsUrl id ("#gid=" ++ g)) = true).
      { apply includes_spec.
        exists (sheetsStem id), g. apply sheetsUrl_assoc. }
      rewrite Hinc, sheetsUrl_assoc, (matchAfter_hash_skip _ _ _ Hhash).
      rewrite <- (string_app_nil_r g) at 1.
      rewrite (matchAfter_hit "#gid=" Platform.isDigit g "" Hg Hgd eq_refl).
      reflexivity.
    + rewrite forallb_string_app, (Hprint g Hgp). reflexivity.
    + unfold Platform.queryOf. rewrite sheetsUrl_assoc.
      change ("#gid=" ++ g) with (String "#" ("gid=" ++ g)).
      rewrite (before_cut _ _ _ Hhash), (after_none _ _ Hquest). reflexivity.
  - rewrite (searchParamsGet_query id Hidc g Hgd ("?gid=" ++ g ++ "#gid=" ++ h)).
    + destruct g; [contradiction|reflexivity].
    + rewrite !forallb_string_app, (Hprint g Hgp), (Hprint h Hhp). reflexivity.
    + unfold Platform.queryOf. rewrite sheetsUrl_assoc.
      replace (sheetsStem id ++ "?gid=" ++ g ++ "#gid=" ++ h)
        with ((sheetsStem id ++ "?gid=" ++ g) ++ String "#" ("gid=" ++ h))
        by (now rewrite !string_app_assoc).
      rewrite before_cut.
      * change ("?gid=" ++ g) with (String "?" ("gid=" ++ g)).
        rewrite (after_cut _ _ _ Hquest). reflexivity.
      * rewrite !without_app, Hhash,
          (plain_without "#"%char g eq_refl Hgp). reflexivity.
Qed.

(** The theorem on the address of the parser's documentation, with the gid
    in the query and in the fragment. *)
Lemma parse_sheets_addresses_witness :
  parseSpreadsheetInput
    (Some (sheetsUrl "1FmDx17Gm2aEa0andQE_JP8qcJD5XfeYhIABvZeFX_Zo"
             ("?gid=" ++ "1850828774" ++ "#gid=" ++ "1850828774")))
  = Returns (mkParsed "1FmDx17Gm2aEa0andQE_JP8qcJD5XfeYhIABvZeFX_Zo"
               (Some "1850828774")).
Proof.
  apply (parse_sheets_addresses "1FmDx17Gm2aEa0andQE_JP8qcJD5XfeYhIABvZeFX_Zo"
           "1850828774" "1850828774");
    solve [discriminate | reflexivity].
Defined.

Section UrlParserErrors.

(** The pattern finds nothing exactly when no occurrence of the prefix is
    followed by a code unit of the class. *)
Lemma matchAfter_none_iff prefix cls s :
  Platform.matchAfter prefix cls s = None <->
  (forall a c b, s = a ++ prefix ++ String c b -> cls c = false).
Proof.
  split; [apply matchAfter_none|].
  intros Hno. destruct (Platform.matchAfter prefix cls s) as [h|] eqn:E;
    [|reflexivity].
  destruct (matchAfter_sound _ _ _ _ E) as (Hne & Hall & a & b & Hs & _).
  destruct h as [|c h]; [contradiction|].
  simpl in Hall. apply andb_true_iff in Hall as [Hc _].
  rewrite (Hno a c (h ++ b)) in Hc; [discriminate|exact Hs].
Qed.

End UrlParserErrors.

(** X: the two errors of the parser. An absent or empty input is refused
    with "Spreadsheet ID or URL is required"; an http(s) input in which no
    /spreadsheets/d/ is followed by a character of [a-zA-Z0-9-_] is refused
    with the invalid-URL message, whatever else it contains. *)
Theorem parse_refuses_bad_input :
  parseSpreadsheetInput None = Throws "Spreadsheet ID or URL is required"
  /\ parseSpreadsheetInput (Some "") = Throws "Spreadsheet ID or URL is required"
  /\ forall url,
       JS.startsWith "http://" url || JS.startsWith "https://" url = true ->
       (forall a c b, url = a ++ "/spreadsheets/d/" ++ String c b ->
                      isIdChar c = false) ->
       parseSpreadsheetInput (Some url) = Throws invalidUrlMessage.
Proof.
  split; [reflexivity|]. split; [reflexivity|].
  intros url Hscheme Hno.
  rewrite (parseSpreadsheetInput_url url Hscheme). unfold parseGoogleSheetsUrl.
  rewrite (proj2 (matchAfter_none_iff _ _ _) Hno). reflexivity.
Qed.

(** The theorem on an address that has /spreadsheets/d/ with nothing usable
    after it. *)
Lemma parse_refuses_bad_input_witness :
  parseSpreadsheetInput (Some "https://docs.google.com/spreadsheets/d/")
  = Throws invalidUrlMessage.
Proof.
  apply (proj2 (proj2 parse_refuses_bad_input)); [reflexivity|].
  apply matchAfter_none_iff. vm_compute. reflexivity.
Defined.

(** X: what a parsed URL gives as the spreadsheet id. For an http(s) input
    that the parser accepts, the id is a non-empty word over [a-zA-Z0-9-_] that
    stands in the input right after /spreadsheets/d/ and is not continued by
    another such character. *)
Theorem parsed_url_id_shape :
  forall url p,
    JS.startsWith "http://" url || JS.startsWith "https://" url = true ->
    parseSpreadsheetInput (Some url) = Returns p ->
    spreadsheetId p <> ""
    /\ Platform.forallb_string isIdChar (spreadsheetId p) = true
    /\ exists a b,
         url = a ++ "/spreadsheets/d/" ++ spreadsheetId p ++ b
         /\ (b = "" \/ exists c b', b = String c b' /\ isIdChar c = false).
Proof.
  intros url p Hscheme. rewrite (parseSpreadsheetInput_url url Hscheme).
  unfold parseGoogleSheetsUrl.
  destruct (Platform.matchAfter "/spreadsheets/d/" isIdChar url) as [id|] eqn:E;
    [|discriminate].
  pose proof (matchAfter_sound _ _ _ _ E) as Hid.
  destruct (Platform.searchParamsGet url "gid") as [v| |]; [| |discriminate].
  - destruct (JS.truthy v); intros [= <-]; exact Hid.
  - intros [= <-]. exact Hid.
Qed.

(** The theorem on an address whose id is followed by a query. *)
Lemma parsed_url_id_shape_witness :
  spreadsheetId (mkParsed "abc" (Some "7")) <> ""
  /\ Platform.forallb_string isIdChar (spreadsheetId (mkParsed "abc" (Some "7")))
     = true.
Proof.
  destruct (parsed_url_id_shape
              "https://docs.google.com/spreadsheets/d/abc/edit?gid=7#gid=5"
              (mkParsed "abc" (Some "7")) eq_refl
              ltac:(vm_compute; reflexivity)) as (H1 & H2 & _).
  exact (conj H1 H2).
Defined.

(** X: the gid the parser returns is never the empty string. It is null or
    a non-empty text; for an input that is not an http(s) URL it is null. *)
Theorem parsed_gid_is_null_or_nonempty :
  forall input p,
    parseSpreadsheetInput input = Returns p ->
    (forall g, gid p = Some g -> g <> "")
    /\ (forall s, input = Some s ->
                  JS.startsWith "http://" s || JS.startsWith "https://" s = false ->
                  gid p = None).
Proof.
  intros input p Hp. split.
  - revert Hp. unfold parseSpreadsheetInput.
    destruct (JS.truthyOpt input); cbn [negb]; [|discriminate].
    destruct input as [s|]; [|discriminate].
    destruct (JS.startsWith "http://" s || JS.startsWith "https://" s).
    + unfold parseGoogleSheetsUrl.
      destruct (Platform.matchAfter "/spreadsheets/d/" isIdChar s); [|discriminate].
      destruct (Platform.searchParamsGet s "gid") as [v| |]; [| |discriminate].
      * destruct v as [|c v]; cbn [JS.truthy].
        -- intros [= <-] g Hg. cbn [gid] in Hg.
           now destruct (hashGid_sound _ _ Hg).
        -- intros [= <-] g [= <-]. discriminate.
      * intros [= <-] g Hg. cbn [gid] in Hg.
        now destruct (hashGid_sound _ _ Hg).
    + intros [= <-] g Hg. discriminate Hg.
  - intros s -> Hscheme. revert Hp. unfold parseSpreadsheetInput.
    destruct (JS.truthyOpt (Some s)); cbn [negb]; [|discriminate].
    rewrite Hscheme. intros [= <-]. reflexivity.
Qed.

(** The theorem on the address with an empty query gid and a fragment. *)
Lemma parsed_gid_is_null_or_nonempty_witness :
  gid (mkParsed "abc" (Some "5")) = Some "5" /\ "5" <> "".
Proof.
  split; [reflexivity|].
  exact (proj1 (parsed_gid_is_null_or_nonempty
                  (Some "https://docs.google.com/spreadsheets/d/abc/edit?gid=#gid=5")
                  (mkParsed "abc" (Some "5")) ltac:(vm_compute; reflexivity))
           "5" eq_refl).
Defined.

(** X: buildA1Notation and the split at the first "!". With an absent or
    empty range the result is the sheet name; with a non-empty range and a
    sheet name without "!", what stands before the first "!" is the sheet name
    and what stands after it is the range. *)
Theorem buildA1Notation_splits_back :
  forall sheetName : string,
    buildA1Notation sheetName None = sheetName
    /\ buildA1Notation sheetName (Some "") = sheetName
    /\ forall r,
         r <> "" -> without "!"%char sheetName = true ->
         Platform.before "!"%char (buildA1Notation sheetName (Some r)) = sheetName
         /\ Platform.after "!"%char (buildA1Notation sheetName (Some r)) = Some r.
Proof.
  intros sheetName. split; [reflexivity|]. split; [reflexivity|].
  intros r Hr Hs. unfold buildA1Notation.
  destruct r as [|c r]; [contradiction|]. cbn [JS.truthy negb].
  change ("!" ++ String c r) with (String "!" (String c r)).
  split; [apply before_cut|apply after_cut]; exact Hs.
Qed.

(** The theorem on "Sheet1" and "A1:B10". *)
Lemma buildA1Notation_splits_back_witness :
  Platform.before "!"%char (buildA1Notation "Sheet1" (Some "A1:B10")) = "Sheet1"
  /\ Platform.after "!"%char (buildA1Notation "Sheet1" (Some "A1:B10"))
     = Some "A1:B10".
Proof.
  apply (proj2 (proj2 (buildA1Notation_splits_back "Sheet1")) "A1:B10");
    [discriminate|reflexivity].
Defined.

(* ===================================================================== *)
(** ** Further properties of the search tools *)
(* ===================================================================== *)

Section SearchMore.



Lemma startsWith_empty_text p : JS.startsWith p "" = true <-> p = "".
Proof. destruct p; simpl; split; congruence. Qed.

Lemma includes_empty_pattern s : JS.includes "" s = true.
Proof. destruct s; reflexivity. Qed.

Lemma includes_refl s : JS.includes s s = true.
Proof.
  apply includes_spec. exists "", "". now rewrite string_app_nil_r.
Qed.

(** Membership in a list of positions counted from [k]. *)
Lemma In_indexedFrom {A : Type} (l : list A) :
  forall k i x,
    In (i, x) (indexedFrom k l) ->
    k <= i < k + Z.of_nat (List.length l)
    /\ nth_error l (Z.to_nat (i - k)) = Some x.
Proof.
  induction l as [|y l IH]; intros k i x; simpl; [intros []|].
  intros [[= <- <-]|H].
  - split; [lia|]. replace (k - k) with 0 by lia. reflexivity.
  - destruct (IH _ _ _ H) as [Hr Hn]. split; [lia|].
    replace (Z.to_nat (i - k)) with (S (Z.to_nat (i - (k + 1)))) by lia.
    exact Hn.
Qed.

(** A position of the row-major enumeration is a position of the grid. *)
Lemma In_rowMajorCells grid r c x :
  In (r, c, x) (rowMajorCells grid) ->
  exists cells,
    nth_error grid (Z.to_nat r) = Some cells
    /\ nth_error cells (Z.to_nat c) = Some x
    /\ 0 <= r < Z.of_nat (List.length grid)
    /\ 0 <= c < Z.of_nat (List.length cells).
Proof.
  unfold rowMajorCells. intros H.
  apply in_flat_map in H as ([i cells] & Hrow & Hcell).
  apply in_map_iff in Hcell as ([j y] & [= <- <- <-] & Hj).
  cbn [fst snd] in *.
  destruct (In_indexedFrom _ _ _ _ Hrow) as [Hri Hrn].
  destruct (In_indexedFrom _ _ _ _ Hj) as [Hci Hcn].
  exists cells. rewrite Z.sub_0_r in Hrn, Hcn.
  repeat split; try assumption; lia.
Qed.

End SearchMore.


(** X: empty texts in the search. A cell that reads as the empty text (an
    empty string, null, false or the number 0) matches exactly when the
    lower-cased search text is empty, in either mode; and an empty search text
    in a mode other than "exact" matches every cell of the grid. *)
Theorem search_empty_texts :
  (forall c, c = CellString "" \/ c = CellNull \/ c = CellBool false
             \/ c = CellNumber 0 -> cellText c = "")
  /\ (forall matchType searchLower,
        isMatch matchType searchLower "" = true <-> searchLower = "")
  /\ (forall args grid,
        searchArg_searchText args = "" ->
        searchMatchType args <> "exact" ->
        matches (searchScan args grid) = map matchAt (rowMajorCells grid)).
Proof.
  split; [|split].
  - intros c [->|[->|[->| ->]]]; reflexivity.
  - intros matchType searchLower. unfold isMatch. cbn [JS.toLowerCase].
    destruct (String.eqb matchType "exact").
    + rewrite String.eqb_eq. split; congruence.
    + destruct searchLower; simpl; split; congruence.
  - intros args grid Htext Hmode. rewrite searchScan_spec. cbn [matches].
    unfold allMatches. rewrite Htext. cbn [JS.toLowerCase]. f_equal.
    apply forallb_filter_id. apply forallb_forall. intros p _.
    unfold isMatch. apply String.eqb_neq in Hmode. rewrite Hmode.
    apply includes_empty_pattern.
Qed.

(** The theorem on the scores grid: the empty text in "contains" mode
    matches its four cells. *)
Lemma search_empty_texts_witness :
  matches (searchScan (mkSearchArgs (Some "abc") "Sheet1" "" None None) scoresGrid)
  = map matchAt (rowMajorCells scoresGrid).
Proof.
  apply (proj2 (proj2 search_empty_texts)); [reflexivity|discriminate].
Defined.

(** X: every match of "exact" is a match of "contains". For the same search
    text and grid, the matches found in "exact" mode are among those found in
    any other mode. *)
Theorem exact_matches_are_contains_matches :
  forall matchType searchLower grid m,
    matchType <> "exact" ->
    In m (allMatches "exact" searchLower grid) ->
    In m (allMatches matchType searchLower grid).
Proof.
  intros matchType searchLower grid m Hmode. unfold allMatches.
  rewrite !in_map_iff. intros (p & Hm & Hp). exists p. split; [exact Hm|].
  apply filter_In in Hp as [Hin Hhit]. apply filter_In. split; [exact Hin|].
  apply isMatch_exact in Hhit.
  apply (isMatch_contains matchType _ _ Hmode).
  exists "", "". rewrite Hhit. now rewrite string_app_nil_r.
Qed.

(** The theorem on the scores grid and "alice". *)
Lemma exact_matches_are_contains_matches_witness :
  In (mkMatch "A2" "Alice" 2 "A") (allMatches "contains" "alice" scoresGrid).
Proof.
  apply (exact_matches_are_contains_matches "contains" "alice" scoresGrid);
    [discriminate|].
  vm_compute. left. reflexivity.
Defined.

(** X: what every reported match looks like. A match of the scan stands for
    a cell of the grid that passes the test: its row is between 1 and the
    number of rows, its column is the letter name of a column of that row, its
    cellRef is the column followed by the row in decimal, and its value is the
    text of that cell. *)
Theorem search_matches_are_cells :
  forall args grid m,
    In m (matches (searchScan args grid)) ->
    exists cells c x,
      nth_error grid (Z.to_nat (row m - 1)) = Some cells
      /\ nth_error cells (Z.to_nat c) = Some x
      /\ 1 <= row m <= Z.of_nat (List.length grid)
      /\ 0 <= c < Z.of_nat (List.length cells)
      /\ col m = columnIndexToLetter c
      /\ cellRef m = col m ++ JS.numberToString (row m)
      /\ value m = cellText x
      /\ isMatch (searchMatchType args)
           (JS.toLowerCase (searchArg_searchText args)) (value m) = true.
Proof.
  intros args grid m. rewrite searchScan_spec. cbn [matches]. unfold allMatches.
  rewrite in_map_iff. intros ([[r c] x] & <- & Hp).
  apply filter_In in Hp as [Hin Hhit]. cbn [snd] in Hhit.
  destruct (In_rowMajorCells _ _ _ _ Hin) as (cells & Hrow & Hcell & Hr & Hc).
  exists cells, c, x. cbn [matchAt row col cellRef value].
  replace (r + 1 - 1) with r by lia.
  repeat split; try assumption; lia.
Qed.

(** The theorem on the match of the scores grid. *)
Lemma search_matches_are_cells_witness :
  exists cells c x,
    nth_error scoresGrid (Z.to_nat (row (mkMatch "A2" "Alice" 2 "A") - 1)) = Some cells
    /\ nth_error cells (Z.to_nat c) = Some x
    /\ 1 <= row (mkMatch "A2" "Alice" 2 "A") <= Z.of_nat (List.length scoresGrid)
    /\ 0 <= c < Z.of_nat (List.length cells)
    /\ col (mkMatch "A2" "Alice" 2 "A") = columnIndexToLetter c
    /\ cellRef (mkMatch "A2" "Alice" 2 "A")
       = col (mkMatch "A2" "Alice" 2 "A")
         ++ JS.numberToString (row (mkMatch "A2" "Alice" 2 "A"))
    /\ value (mkMatch "A2" "Alice" 2 "A") = cellText x
    /\ isMatch "exact" (JS.toLowerCase "Alice")
         (value (mkMatch "A2" "Alice" 2 "A")) = true.
Proof.
  apply (search_matches_are_cells
           (mkSearchArgs (Some "abc") "Sheet1" "Alice" (Some "exact") (Some 10))
           scoresGrid (mkMatch "A2" "Alice" 2 "A")).
  vm_compute. left. reflexivity.
Defined.

Section ColumnScan.

Variables (matchType searchLower column : string).

Lemma findRows_spec (grid : list (list cell)) :
  forall (i : Z) (found : list columnMatch),
    forEachFrom (findRowCallback matchType searchLower column) i grid found =
    (found ++ map (columnMatchAt column)
       (filter (fun ir => isMatch matchType searchLower (firstCellText (snd ir)))
          (indexedFrom i grid)))%list.
Proof.
  induction grid as [|r grid IH]; intros i found; simpl.
  - now rewrite app_nil_r.
  - rewrite IH. unfold findRowCallback.
    destruct (isMatch matchType searchLower (firstCellText r)); simpl;
      [rewrite <- app_assoc|]; reflexivity.
Qed.

End ColumnScan.

Lemma findScan_spec (args : findArgs) (grid : list (list cell)) :
  findScan args grid =
  allColumnMatches (matchTypeOrContains (findArg_matchType args))
    (JS.toLowerCase (findArg_searchText args)) (findArg_column args) grid.
Proof. unfold findScan, forEach. rewrite findRows_spec. reflexivity. Qed.

(** X: find-in-column reports every matching row. Once the identifier is
    parsed, the tool sends the one request <sheet>!<col>1:<col>10000; on a
    non-empty answer it tests the first cell of every row (an empty row reads
    as the empty text), and it counts and lists all the rows that pass, in
    order, each with its 1-based row number and the reference <col><row>:
    there is no cap on the list. *)
Theorem find_in_column_reports_every_match :
  forall (api : GoogleApi) (log : list apiCall) (args : findArgs)
         (p : parsedInput) (vr : ValueRange),
    let rng := findArg_sheetName args ++ "!" ++ findArg_column args ++ "1:"
               ++ findArg_column args ++ "10000" in
    let matchType := matchTypeOrContains (findArg_matchType args) in
    let all := allColumnMatches matchType
                 (JS.toLowerCase (findArg_searchText args)) (findArg_column args) in
    parseSpreadsheetInput (findArg_spreadsheetId args) = Returns p ->
    values_get api (spreadsheetId p) rng = Returns vr ->
    findInColumnTool args api log =
    (Returns
       (mkResultOf
          (match values vr with
           | None | Some [] => FindNoData (findArg_column args)
           | Some grid =>
               if Z.of_nat (List.length (all grid)) =? 0
               then FindNoMatches (findArg_column args) (findArg_searchText args)
                      matchType (findArg_sheetName args)
               else FindFound (Z.of_nat (List.length (all grid)))
                      (1 <? Z.of_nat (List.length (all grid)))
                      (findArg_column args) (findArg_searchText args) matchType
                      (findArg_sheetName args)
                      (map (fun m => (columnRow m, columnCellRef m, columnValue m))
                         (all grid))
           end)
          false),
     (log ++ [CallValuesGet (spreadsheetId p) rng])%list).
Proof.
  intros api log args p vr rng matchType all Hp Hv. subst rng matchType all.
  unfold findInColumnTool, bind, lift, getValues, ret.
  rewrite Hp, Hv.
  destruct (values vr) as [[|r grid]|]; try reflexivity.
  rewrite findScan_spec.
  destruct (Z.of_nat (List.length (allColumnMatches _ _ _ (r :: grid))) =? 0);
    reflexivity.
Qed.

(** The theorem on a column of three rows, the second of them empty. *)
Lemma find_in_column_reports_every_match_witness :
  findInColumnTool (mkFindArgs (Some "abc") "Sheet1" "B" "x" None)
    (apiServing (mkValueRange None
       (Some [[CellString "ax"]; []; [CellString "X"; CellString "n"]]))) []
  = (Returns (mkResultOf
                (FindFound 2 true "B" "x" "contains" "Sheet1"
                   [(1, "B1", "ax"); (3, "B3", "X")])
                false),
     [CallValuesGet "abc" "Sheet1!B1:B10000"]).
Proof.
  exact (find_in_column_reports_every_match
           (apiServing (mkValueRange None
              (Some [[CellString "ax"]; []; [CellString "X"; CellString "n"]])))
           [] (mkFindArgs (Some "abc") "Sheet1" "B" "x" None)
           (mkParsed "abc" None)
           (mkValueRange None
              (Some [[CellString "ax"]; []; [CellString "X"; CellString "n"]]))
           eq_refl eq_refl).
Defined.

(** X: the default cap of search-values. When maxResults is absent or 0,
    the answer lists the first 50 matches and still counts all of them; the
    note "showing first 50" is set exactly when there are more than 50. *)
Theorem search_values_default_cap :
  forall (api : GoogleApi) (log : list apiCall) (args : searchArgs)
         (p : parsedInput) (vr : ValueRange) (r : list cell)
         (grid : list (list cell)),
    parseSpreadsheetInput (searchArg_spreadsheetId args) = Returns p ->
    values_get api (spreadsheetId p) (searchArg_sheetName args ++ "!A1:ZZ10000")
      = Returns vr ->
    values vr = Some (r :: grid) ->
    searchArg_maxResults args = None \/ searchArg_maxResults args = Some 0 ->
    let all := allMatches (searchMatchType args)
                 (JS.toLowerCase (searchArg_searchText args)) (r :: grid) in
    let total := Z.of_nat (List.length all) in
    all <> [] ->
    fst (searchValuesTool args api log) =
    Returns
      (mkToolResult
         (SearchFound total (1 <? total) (searchArg_searchText args)
            (searchMatchType args) (searchArg_sheetName args)
            (if 50 <? total then Some 50 else None)
            (map (fun x => (cellRef x, value x)) (firstn 50 all)))
         false).
Proof.
  intros api log args p vr r grid Hp Hv Hgrid Hmax all total Hsome.
  rewrite (searchValuesTool_run api log args p vr Hp Hv). cbn [fst].
  rewrite Hgrid. fold all. fold total.
  assert (Hm : searchMaxResults args = 50).
  { unfold searchMaxResults. destruct Hmax as [-> | ->]; reflexivity. }
  rewrite Hm.
  assert (Hpos : (total =? 0) = false).
  { apply Z.eqb_neq. unfold total. destruct all; [contradiction|simpl; lia]. }
  rewrite Hpos. reflexivity.
Qed.

(** The theorem on the letters grid searched for "a" without maxResults. *)
Lemma search_values_default_cap_witness :
  fst (searchValuesTool (mkSearchArgs (Some "abc") "Data" "a" None None)
         (apiServing (mkValueRange None (Some lettersGrid))) [])
  = Returns (mkToolResult
               (SearchFound 4 true "a" "contains" "Data" None
                  [("A1", "a"); ("B1", "A"); ("C1", "ba"); ("B2", "ya")])
               false).
Proof.
  apply (search_values_default_cap
           (apiServing (mkValueRange None (Some lettersGrid))) []
           (mkSearchArgs (Some "abc") "Data" "a" None None)
           (mkParsed "abc" None) (mkValueRange None (Some lettersGrid))
           [CellString "a"; CellString "A"; CellString "ba"]
           [[CellString "x"; CellString "ya"]]);
    [reflexivity|reflexivity|reflexivity|left; reflexivity|].
  vm_compute. discriminate.
Defined.

(* ===================================================================== *)
(** ** Further properties of the sheet tools *)
(* ===================================================================== *)

Section SheetToolsMore.

Lemma sheetHasTitle_spec name s :
  sheetHasTitle name s = true <->
  exists p, properties s = Some p /\ title p = Some name.
Proof.
  unfold sheetHasTitle. split.
  - destruct (properties s) as [p|]; [|discriminate].
    destruct (title p) as [t|] eqn:Et; [|discriminate].
    intros H. apply String.eqb_eq in H. subst t. now exists p.
  - intros (p & -> & ->). apply String.eqb_refl.
Qed.

Lemma previewCells_spec (rowNum : Z) (cells : list cell) :
  forall (i : Z) (acc : list (string * cell)),
    forEachFrom (previewCellCallback rowNum) i cells acc =
    (acc ++ map (fun jc => ((columnIndexToLetter (fst jc)
                             ++ JS.numberToString rowNum)%string,
                            previewCell (snd jc)))
              (indexedFrom i cells))%list.
Proof.
  induction cells as [|c cells IH]; intros i acc; simpl.
  - now rewrite app_nil_r.
  - rewrite IH. unfold previewCellCallback. now rewrite <- app_assoc.
Qed.

Lemma previewRows_spec (grid : list (list cell)) :
  forall (i : Z) (acc : list (Z * list (string * cell))),
    forEachFrom previewRowCallback i grid acc =
    (acc ++ map (fun ir =>
                   (fst ir + 1,
                    map (fun jc =>
                           ((columnIndexToLetter (fst jc)
                             ++ JS.numberToString (fst ir + 1))%string,
                            previewCell (snd jc)))
                      (indexedFrom 0 (snd ir))))
              (indexedFrom i grid))%list.
Proof.
  induction grid as [|r grid IH]; intros i acc; simpl.
  - now rewrite app_nil_r.
  - rewrite IH. unfold previewRowCallback, forEach.
    rewrite previewCells_spec. cbn [app fst snd].
    now rewrite <- app_assoc.
Qed.

Lemma fold_max_bounds (l : list Z) :
  forall a, a <= fold_left Z.max l a
            /\ (forall x, In x l -> x <= fold_left Z.max l a)
            /\ (fold_left Z.max l a = a \/ In (fold_left Z.max l a) l).
Proof.
  induction l as [|y l IH]; intros a; simpl.
  - split; [lia|]. split; [intros _ []|now left].
  - destruct (IH (Z.max a y)) as (Hge & Hall & Hin).
    split; [lia|]. split.
    + intros x [<-|Hx]; [lia|now apply Hall].
    + destruct Hin as [Heq|Hin]; [|right; now right].
      rewrite Heq. destruct (Z.max_spec a y) as [[_ ->]|[_ ->]];
        [right; now left|now left].
Qed.

Lemma length_indexedFrom {A : Type} (l : list A) :
  forall k, List.length (indexedFrom k l) = List.length l.
Proof. induction l as [|x l IH]; intros k; simpl; [|rewrite IH]; reflexivity. Qed.

End SheetToolsMore.

(** X: get-sheet-info looks the sheet up by its exact title. Once the
    identifier is parsed and the metadata fetched (one request, without grid
    data), the tool answers with the properties of the first sheet whose title
    is the given name, and with an error-flagged "Sheet not found" when no
    sheet has that title; it does not throw. *)
Theorem get_sheet_info_by_title :
  forall (api : GoogleApi) (log : list apiCall) (args : infoArgs)
         (p : parsedInput) (ss : Spreadsheet),
    parseSpreadsheetInput (infoArg_spreadsheetId args) = Returns p ->
    spreadsheets_get api (spreadsheetId p) false = Returns ss ->
    let candidates := match sheets ss with Some l => l | None => [] end in
    let log' := (log ++ [CallSpreadsheetsGet (spreadsheetId p) false])%list in
    ((forall s, In s candidates -> sheetHasTitle (infoArg_sheetName args) s = false) ->
     getSheetInfoTool args api log =
     (Returns (mkResultOf (InfoNotFound (infoArg_sheetName args)) true), log'))
    /\ (forall s,
          In s candidates -> sheetHasTitle (infoArg_sheetName args) s = true ->
          exists s0 pre post props,
            getSheetInfoTool args api log =
            (Returns (mkResultOf (InfoFound (Some props)) false), log')
            /\ candidates = (pre ++ s0 :: post)%list
            /\ properties s0 = Some props
            /\ title props = Some (infoArg_sheetName args)
            /\ forall y, In y pre -> sheetHasTitle (infoArg_sheetName args) y = false).
Proof.
  intros api log args p ss Hp Hss candidates log'.
  assert (Hrun : getSheetInfoTool args api log =
                 match List.find (sheetHasTitle (infoArg_sheetName args)) candidates with
                 | None => (Returns (mkResultOf (InfoNotFound (infoArg_sheetName args)) true), log')
                 | Some sh => (Returns (mkResultOf (InfoFound (properties sh)) false), log')
                 end).
  { unfold getSheetInfoTool, bind, lift, getSpreadsheet, ret, candidates.
    rewrite Hp, Hss. destruct (sheets ss) as [l|]; [|reflexivity].
    destruct (List.find _ l); reflexivity. }
  rewrite Hrun. split.
  - intros Hnone. rewrite (find_is_none _ _ Hnone). reflexivity.
  - intros s Hin Hs.
    destruct (find_is_some _ _ s Hin Hs) as [s0 Hs0].
    destruct (find_first _ _ _ Hs0) as (Ht & pre & post & Hl & Hpre).
    apply sheetHasTitle_spec in Ht as (props & Hprops & Htitle).
    exists s0, pre, post, props. rewrite Hs0, Hprops. repeat split; assumption.
Qed.

(** The theorem on the spreadsheet with the sheets "Sheet1" and "Data". *)
Lemma get_sheet_info_by_title_witness :
  getSheetInfoTool (mkInfoArgs (Some "abc") "Nope") (apiDescribing twoSheets) []
  = (Returns (mkResultOf (InfoNotFound "Nope") true),
     [CallSpreadsheetsGet "abc" false]).
Proof.
  apply (proj1 (get_sheet_info_by_title (apiDescribing twoSheets) []
                  (mkInfoArgs (Some "abc") "Nope") (mkParsed "abc" None)
                  twoSheets eq_refl eq_refl)).
  intros s [<-|[<-|[]]]; reflexivity.
Defined.

(** X: what the preview shows. For a non-empty fetched grid the tool
    answers with one line group per fetched row, numbered from 1, holding one
    entry per cell of that row with its A1 reference; an empty-string cell is
    shown as "(empty)" and every other cell as it is. The size reported is the
    number of fetched rows and the length of the longest of them. *)
Theorem preview_shows_every_cell :
  forall (api : GoogleApi) (log : list apiCall) (args : previewArgs)
         (p : parsedInput) (vr : ValueRange) (r : list cell)
         (grid : list (list cell)),
    parseSpreadsheetInput (previewArg_spreadsheetId args) = Returns p ->
    values_get api (spreadsheetId p)
      (previewArg_sheetName args ++ "!A1:ZZ"
       ++ JS.numberToString (previewNumRows args)) = Returns vr ->
    values vr = Some (r :: grid) ->
    fst (getSheetPreviewTool args api log) =
    Returns (mkToolResult
               (Preview (previewArg_sheetName args)
                  (Z.of_nat (List.length (r :: grid))) (maxLength (r :: grid))
                  (previewNumRows args) (previewLines (r :: grid)))
               false)
    /\ List.length (previewLines (r :: grid)) = List.length (r :: grid)
    /\ (forall cells, In cells (r :: grid) ->
                      Z.of_nat (List.length cells) <= maxLength (r :: grid))
    /\ (exists cells, In cells (r :: grid)
                      /\ maxLength (r :: grid) = Z.of_nat (List.length cells))
    /\ previewCell (CellString "") = CellString "(empty)"
    /\ (forall c, c <> CellString "" -> previewCell c = c).
Proof.
  intros api log args p vr r grid Hp Hv Hgrid.
  split; [|split; [|split; [|split; [|split]]]].
  - unfold getSheetPreviewTool, bind, lift, getValues, ret.
    rewrite Hp, Hv, Hgrid. cbn [fst]. unfold forEach.
    rewrite previewRows_spec. reflexivity.
  - unfold previewLines. now rewrite length_map, length_indexedFrom.
  - intros cells Hin. unfold maxLength.
    destruct (fold_max_bounds (map (fun x => Z.of_nat (List.length x)) grid)
                (Z.of_nat (List.length r))) as (Hge & Hall & _).
    destruct Hin as [<-|Hin]; [exact Hge|].
    apply Hall. apply in_map_iff. now exists cells.
  - unfold maxLength.
    destruct (fold_max_bounds (map (fun x => Z.of_nat (List.length x)) grid)
                (Z.of_nat (List.length r))) as (_ & _ & [Heq|Hin]).
    + exists r. split; [now left|exact Heq].
    + apply in_map_iff in Hin as (cells & Hlen & Hin).
      exists cells. split; [now right|now rewrite Hlen].
  - reflexivity.
  - intros c Hc. destruct c as [[|x s]| | |]; try reflexivity. contradiction.
Qed.

(** The theorem on the scores grid, previewed with the default ten rows. *)
Lemma preview_shows_every_cell_witness :
  fst (getSheetPreviewTool (mkPreviewArgs (Some "abc") "Sheet1" None)
         (apiServing (mkValueRange None (Some scoresGrid))) [])
  = Returns (mkToolResult
               (Preview "Sheet1" 2 2 10
                  [(1, [("A1", CellString "Name"); ("B1", CellString "Score")]);
                   (2, [("A2", CellString "Alice"); ("B2", CellString "95")])])
               false).
Proof.
  exact (proj1 (preview_shows_every_cell
                  (apiServing (mkValueRange None (Some scoresGrid))) []
                  (mkPreviewArgs (Some "abc") "Sheet1" None)
                  (mkParsed "abc" None) (mkValueRange None (Some scoresGrid))
                  [CellString "Name"; CellString "Score"]
                  [[CellString "Alice"; CellString "95"]]
                  eq_refl eq_refl eq_refl)).
Defined.



(* ===================================================================== *)
(** ** Properties of the registry and of the registered wrapper *)
(* ===================================================================== *)

Section Registry.

Context {Args R : Type}.

Lemma registry_all_decline (toolModules : list (string -> Args -> Client (option R)))
  name args :
  Forall (fun handle =>
            forall api log, handle name args api log = (Returns None, log))
    toolModules ->
  forall api log,
    registryHandleToolCall toolModules name args api log
    = (Throws ("Unknown tool: " ++ name), log).
Proof.
  induction 1 as [|handle rest Hd _ IH]; intros api log; simpl.
  - reflexivity.
  - unfold bind. rewrite (Hd api log). apply IH.
Qed.

Lemma registry_first_hit (pre post : list (string -> Args -> Client (option R)))
  handle name args :
  Forall (fun h => forall api log, h name args api log = (Returns None, log))
    pre ->
  forall api log,
    registryHandleToolCall (pre ++ handle :: post)%list name args api log
    = match handle name args api log with
      | (Returns (Some r), log') => (Returns r, log')
      | (Returns None, log') => registryHandleToolCall post name args api log'
      | (Throws e, log') => (Throws e, log')
      | (NotModelled, log') => (NotModelled, log')
      end.
Proof.
  induction 1 as [|h pre Hd _ IH]; intros api log; simpl.
  - unfold bind, ret.
    destruct (handle name args api log) as [[[r|]| |] log']; reflexivity.
  - unfold bind at 1. rewrite (Hd api log). apply IH.
Qed.

End Registry.

(** X: how the registry routes a call. Over any list of modules: when every
    module declines the name (returns null without a request), the call throws
    "Unknown tool: <name>" and nothing was sent; when the modules before one
    decline and that one answers or throws, its answer or error is the result
    and the modules after it are not run, whatever they would do. *)
Theorem registry_routes_to_first_handler :
  forall (Args R : Type)
         (pre post : list (string -> Args -> Client (option R)))
         (handle : string -> Args -> Client (option R))
         (name : string) (args : Args) (api : GoogleApi) (log : list apiCall),
    Forall (fun h => forall api' log', h name args api' log' = (Returns None, log'))
      pre ->
    (forall r log',
        handle name args api log = (Returns (Some r), log') ->
        registryHandleToolCall (pre ++ handle :: post)%list name args api log
        = (Returns r, log'))
    /\ (forall e log',
          handle name args api log = (Throws e, log') ->
          registryHandleToolCall (pre ++ handle :: post)%list name args api log
          = (Throws e, log'))
    /\ registryHandleToolCall pre name args api log
       = (Throws ("Unknown tool: " ++ name), log).
Proof.
  intros Args R pre post handle name args api log Hpre.
  split; [|split].
  - intros r log' Hh. rewrite (registry_first_hit pre post handle name args Hpre).
    rewrite Hh. reflexivity.
  - intros e log' Hh. rewrite (registry_first_hit pre post handle name args Hpre).
    rewrite Hh. reflexivity.
  - apply registry_all_decline. exact Hpre.
Qed.

(** X: the search module and unknown names. The module of
    tools/search.tools.js returns null, without a request, for every name other
    than search-values and find-in-column; a registry made of it alone then
    throws "Unknown tool: <name>", and the registered wrapper turns that into an
    error answer. The wrapper itself never throws. *)
Theorem search_module_declines_other_names :
  forall (name : string) (args : searchModuleArgs) (api : GoogleApi)
         (log : list apiCall),
    name <> "search-values" -> name <> "find-in-column" ->
    searchTools_handleToolCall name args api log = (Returns None, log)
    /\ registryHandleToolCall [searchTools_handleToolCall] name args api log
       = (Throws ("Unknown tool: " ++ name), log)
    /\ registeredTool name
         (registryHandleToolCall [searchTools_handleToolCall] name args) api log
       = (Returns (ErrorAnswer name ("Unknown tool: " ++ name)), log)
    /\ forall (T : Type) (handler : Client T) e,
         fst (registeredTool name handler api log) <> Throws e.
Proof.
  intros name args api log Hs Hf.
  assert (Hnull : forall api' log',
             searchTools_handleToolCall name args api' log' = (Returns None, log')).
  { intros api' log'. unfold searchTools_handleToolCall.
    apply String.eqb_neq in Hs, Hf. rewrite Hs, Hf. reflexivity. }
  assert (Hreg : registryHandleToolCall [searchTools_handleToolCall] name args api log
                 = (Throws ("Unknown tool: " ++ name), log)).
  { apply registry_all_decline. constructor; [exact Hnull|constructor]. }
  split; [apply Hnull|]. split; [exact Hreg|]. split.
  - unfold registeredTool. rewrite Hreg. reflexivity.
  - intros T handler e. unfold registeredTool.
    destruct (handler api log) as [[r|e'|] log']; discriminate.
Qed.

(** The theorem on the name "get-values", which the search module does not
    handle. *)
Lemma search_module_declines_other_names_witness :
  registeredTool "get-values"
    (registryHandleToolCall [searchTools_handleToolCall] "get-values"
       (mkSearchModuleArgs (Some "abc") "Sheet1" "x" None None "A"))
    (apiServing (mkValueRange None None)) []
  = (Returns (ErrorAnswer "get-values" "Unknown tool: get-values"), []).
Proof.
  apply (search_module_declines_other_names "get-values"
           (mkSearchModuleArgs (Some "abc") "Sheet1" "x" None None "A")
           (apiServing (mkValueRange None None)) []); discriminate.
Defined.

(** The routing theorem on a registry of two copies of the search module,
    called for find-in-column: the first copy answers. *)
Lemma registry_routes_to_first_handler_witness :
  registryHandleToolCall
    ([] ++ [searchTools_handleToolCall; searchTools_handleToolCall])%list
    "find-in-column"
    (mkSearchModuleArgs (Some "abc") "Sheet1" "x" None None "B")
    (apiServing (mkValueRange None (Some [[CellString "ax"]]))) []
  = (Returns (FindInColumnResult
                (mkResultOf (FindFound 1 false "B" "x" "contains" "Sheet1"
                               [(1, "B1", "ax")]) false)),
     [CallValuesGet "abc" "Sheet1!B1:B10000"]).
Proof.
  apply (proj1 (registry_routes_to_first_handler searchModuleArgs
                  searchModuleResult [] [searchTools_handleToolCall]
                  searchTools_handleToolCall "find-in-column"
                  (mkSearchModuleArgs (Some "abc") "Sheet1" "x" None None "B")
                  (apiServing (mkValueRange None (Some [[CellString "ax"]]))) []
                  (Forall_nil _))).
  vm_compute. reflexivity.
Defined.

(* ===================================================================== *)
(** ** Further properties of the REST client and of the handlers *)
(* ===================================================================== *)

Section ClientEffects.













End ClientEffects.


(** X: the token is reused after a refresh. When a call of getAccessToken
    has exchanged the assertion for a non-empty token valid for expires_in
    seconds, a later call whose clock reads less than the clock at the reply
    plus expires_in*1000 minus 300000 returns that token without any exchange
    and without touching the client; a later call at or beyond that instant
    does not take the cached path. *)
Theorem token_reused_after_refresh :
  forall (w w2 : World) (st : clientState) (log : list netEvent)
         (jwt text token : string) (expires : Z),
    GoogleSheetsClient.tokenIsFresh w st = false ->
    createJWT w = Done jwt ->
    urlParses w (token_uri st) = true ->
    tokenEndpoint w (GoogleSheetsClient.tokenPostData jwt)
      = TokenResponse 200 text (BodyObject (Some token) (Some expires)) ->
    token <> "" ->
    0 <= now_at_check w2 ->
    forall r1 st1 log1,
      GoogleSheetsClient.getAccessToken w st log = (r1, st1, log1) ->
      r1 = Resolved (Some token)
      /\ (now_at_check w2 < now_at_reply w + expires * 1000 - 300000 ->
          GoogleSheetsClient.getAccessToken w2 st1 log1
          = (Resolved (Some token), st1, log1))
      /\ (now_at_reply w + expires * 1000 - 300000 <= now_at_check w2 ->
          GoogleSheetsClient.tokenIsFresh w2 st1 = false).
Proof.
  intros w w2 st log jwt text token expires Hstale Hjwt Hurl Hreply Htok Hnow2
         r1 st1 log1 Hfirst.
  unfold GoogleSheetsClient.getAccessToken in Hfirst.
  rewrite Hstale, Hjwt, Hurl, Hreply in Hfirst. cbn in Hfirst.
  injection Hfirst as <- <- <-. split; [reflexivity|].
  pose proof (tokenIsFresh_spec w2
                (mkClient (apiUrl st) (token_uri st) (Some token)
                   (Some (now_at_reply w + expires * 1000))) Hnow2) as Hspec.
  cbn [accessToken tokenExpiry] in Hspec. split.
  - intros Hlt. unfold GoogleSheetsClient.getAccessToken.
    rewrite (proj2 Hspec); [reflexivity|].
    exists token, (now_at_reply w + expires * 1000). repeat split; assumption.
  - intros Hge.
    destruct (GoogleSheetsClient.tokenIsFresh w2 _) eqn:E; [|reflexivity].
    destruct (proj1 Hspec eq_refl) as (t & e & [= <-] & _ & [= <-] & Hlt). lia.
Qed.

(** The theorem on the refresh at clock 1000500 for 3600 seconds, followed
    by a call at clock 2000000. *)
Lemma token_reused_after_refresh_witness :
  GoogleSheetsClient.getAccessToken
    (worldReplying 2000000 2000500 "other" (HttpError "unused"))
    (clientWith (Some "new") (Some 4600500))
    [TokenExchange "https://oauth2.googleapis.com/token"
       (GoogleSheetsClient.tokenPostData "jwt")]
  = (Resolved (Some "new"), clientWith (Some "new") (Some 4600500),
     [TokenExchange "https://oauth2.googleapis.com/token"
        (GoogleSheetsClient.tokenPostData "jwt")]).
Proof.
  refine (proj1 (proj2 (token_reused_after_refresh
            (worldReplying 1000000 1000500 "new" (HttpError "unused"))
            (worldReplying 2000000 2000500 "other" (HttpError "unused"))
            (clientWith (Some "old") (Some 1200000)) []
            "jwt" "{}" "new" 3600 eq_refl eq_refl eq_refl eq_refl _ _
            _ _ _ eq_refl)) _).
  - discriminate.
  - simpl. lia.
  - simpl. lia.
Defined.

(** X: the handlers refuse missing arguments before any network use. With
    an absent or empty spreadsheet_id each of the seven handlers resolves with
    the failure "spreadsheet_id is required"; with an id but no range,
    getValues, updateValues and appendValues fail on the range; with an id and
    a range but values that are not an array, updateValues and appendValues
    fail on the values; with an id but absent or empty ranges, batchGetValues
    fails; with an id but no gid, getSheetByGid fails. In all these cases
    nothing is sent and the client is left as it was. *)
Theorem handlers_refuse_missing_arguments :
  forall (args : handlerArgs) (w : World) (st : clientState) (log : list netEvent),
    (JS.truthyOpt (arg_spreadsheet_id args) = false ->
     forall op, In op (handlerOperations args) ->
                run op w st log = (Resolved (failed spreadsheetIdRequired), st, log))
    /\ (JS.truthyOpt (arg_spreadsheet_id args) = true ->
        (JS.truthyOpt (arg_range args) = false ->
         forall op,
           In op [HandlerGetValues args; HandlerUpdateValues args;
                  HandlerAppendValues args] ->
           exists m, run op w st log = (Resolved (failed m), st, log))
        /\ (JS.truthyOpt (arg_range args) = true ->
            (forall rows, arg_values args <> Some (JArray rows)) ->
            forall op,
              In op [HandlerUpdateValues args; HandlerAppendValues args] ->
              run op w st log = (Resolved (failed valuesRequired), st, log))
        /\ (arg_ranges args = None \/ arg_ranges args = Some [] ->
            run (HandlerBatchGetValues args) w st log
            = (Resolved (failed "ranges is required and must be a non-empty array"),
               st, log))
        /\ (arg_gid args = None ->
            run (HandlerGetSheetByGid args) w st log
            = (Resolved (failed "gid is required"), st, log))).
Proof.
  intros args w st log. split.
  - intros Hid op Hop.
    assert (Hcase : arg_spreadsheet_id args = None
                    \/ arg_spreadsheet_id args = Some "").
    { destruct (arg_spreadsheet_id args) as [[|c s]|]; auto; discriminate. }
    unfold handlerOperations in Hop. cbn [In] in Hop.
    destruct Hop as [<-|[<-|[<-|[<-|[<-|[<-|[<-|[]]]]]]]]; cbn [run];
      unfold valueHandlers.getValues, valueHandlers.batchGetValues,
        valueHandlers.updateValues, valueHandlers.appendValues,
        valueHandlers.withRangeAndValues, sheetHandlers.getSpreadsheet,
        sheetHandlers.listSheets, sheetHandlers.getSheetByGid;
      destruct Hcase as [-> | ->]; reflexivity.
  - intros Hid.
    destruct (arg_spreadsheet_id args) as [id|] eqn:Eid; [|discriminate].
    cbn [JS.truthyOpt] in Hid.
    split; [|split; [|split]].
    + intros Hrange op Hop.
      assert (Hcase : arg_range args = None \/ arg_range args = Some "").
      { destruct (arg_range args) as [[|c s]|]; auto; discriminate. }
      cbn [In] in Hop. destruct Hop as [<-|[<-|[<-|[]]]]; cbn [run];
        unfold valueHandlers.getValues, valueHandlers.updateValues,
          valueHandlers.appendValues, valueHandlers.withRangeAndValues;
        rewrite Eid, Hid; cbn [negb];
        destruct Hcase as [-> | ->]; eexists; reflexivity.
    + intros Hrange Hvals op Hop.
      destruct (arg_range args) as [rng|] eqn:Erng; [|discriminate].
      cbn [JS.truthyOpt] in Hrange.
      cbn [In] in Hop. destruct Hop as [<-|[<-|[]]]; cbn [run];
        unfold valueHandlers.updateValues, valueHandlers.appendValues,
          valueHandlers.withRangeAndValues;
        rewrite Eid, Hid, Erng, Hrange; cbn [negb];
        destruct (arg_values args) as [[| | | | |rows|]|]; try reflexivity;
        now contradiction (Hvals rows).
    + intros Hranges. cbn [run]. unfold valueHandlers.batchGetValues.
      rewrite Eid, Hid. cbn [negb]. destruct Hranges as [-> | ->]; reflexivity.
    + intros Hgid. cbn [run]. unfold sheetHandlers.getSheetByGid.
      rewrite Eid, Hid, Hgid. reflexivity.
Qed.

(** The theorem on getSheetByGid called with an id and no gid, as the
    repository's own test does. *)
Lemma handlers_refuse_missing_arguments_witness :
  run (HandlerGetSheetByGid
         (mkHandlerArgs (Some "abc") None None None None None None None None))
    (worldReplying 1000 2000 "t" (HttpError "unused")) (clientWith None None) []
  = (Resolved (failed "gid is required"), clientWith None None, []).
Proof.
  exact (proj2 (proj2 (proj2 (proj2
           (handlers_refuse_missing_arguments
              (mkHandlerArgs (Some "abc") None None None None None None None None)
              (worldReplying 1000 2000 "t" (HttpError "unused"))
              (clientWith None None) [])
           eq_refl))) eq_refl).
Defined.

Section Summaries.

Lemma sheetSummary_notNullish sheet :
  notNullish sheet -> GoogleSheetsClient.sheetSummary sheet = Done (summaryOf sheet).
Proof. destruct sheet; simpl; intros H; try contradiction; reflexivity. Qed.

Lemma mapAttempt_sheetSummary items :
  Forall notNullish items ->
  GoogleSheetsClient.mapAttempt GoogleSheetsClient.sheetSummary items
  = Done (map summaryOf items).
Proof.
  induction 1 as [|x items Hx _ IH]; [reflexivity|].
  cbn [GoogleSheetsClient.mapAttempt map].
  rewrite (sheetSummary_notNullish x Hx), IH. reflexivity.
Qed.

Lemma mapAttempt_sheetSummary_null pre post :
  Forall notNullish pre ->
  GoogleSheetsClient.mapAttempt GoogleSheetsClient.sheetSummary
    (pre ++ JNull :: post)%list = Raised typeErrorMessage.
Proof.
  induction 1 as [|x pre Hx _ IH]; [reflexivity|].
  cbn [GoogleSheetsClient.mapAttempt app].
  rewrite (sheetSummary_notNullish x Hx), IH. reflexivity.
Qed.

Lemma findSheet_find g l :
  Forall isObject l ->
  sheetHandlers.findSheet g l = Done (List.find (hasSheetId g) l).
Proof.
  induction 1 as [|s l Hs _ IH]; [reflexivity|].
  destruct s; try contradiction.
  cbn [sheetHandlers.findSheet prop List.find]. unfold hasSheetId.
  destruct (optProp (JObject fields) "sheetId"); try exact IH.
  destruct (n =? g); [reflexivity|exact IH].
Qed.

End Summaries.

(** X: what listSheets makes of the metadata. When getSpreadsheet succeeds
    with data whose "sheets" is an array without null entries, listSheets
    succeeds with the array of the summaries of those sheets, one per sheet and
    in the same order, each with the five keys title, sheetId, index, rowCount
    and columnCount; when the data has no "sheets" (or a null one) it succeeds
    with the empty array; when an entry of the array is null, or the data
    itself is null, it fails with the error of the engine instead of throwing.
    The client and the requests sent are those of getSpreadsheet. *)
Theorem listSheets_summarises_each_sheet :
  forall (id : string) (w : World) (st st' : clientState)
         (log log' : list netEvent) (d : jsValue),
    GoogleSheetsClient.getSpreadsheet id false w st log
      = (Resolved (succeeded d), st', log') ->
    (forall items,
        notNullish d -> optProp d "sheets" = JArray items ->
        Forall notNullish items ->
        GoogleSheetsClient.listSheets id w st log
        = (Resolved (succeeded (JArray (map summaryOf items))), st', log')
        /\ List.length (map summaryOf items) = List.length items)
    /\ (notNullish d ->
        optProp d "sheets" = JUndefined \/ optProp d "sheets" = JNull ->
        GoogleSheetsClient.listSheets id w st log
        = (Resolved (succeeded (JArray [])), st', log'))
    /\ (forall pre post,
          notNullish d -> optProp d "sheets" = JArray (pre ++ JNull :: post)%list ->
          Forall notNullish pre ->
          GoogleSheetsClient.listSheets id w st log
          = (Resolved (failed typeErrorMessage), st', log'))
    /\ (d = JNull ->
        GoogleSheetsClient.listSheets id w st log
        = (Resolved (failed typeErrorMessage), st', log')).
Proof.
  intros id w st st' log log' d Hget. unfold GoogleSheetsClient.listSheets.
  rewrite Hget. cbn [success succeeded negb data].
  unfold GoogleSheetsClient.sheetSummaries.
  assert (Hprop : notNullish d -> prop d "sheets" = Done (optProp d "sheets")).
  { destruct d; simpl; intros H; try contradiction; reflexivity. }
  split; [|split; [|split]].
  - intros items Hd Hsheets Hitems.
    rewrite (Hprop Hd), Hsheets, (mapAttempt_sheetSummary items Hitems).
    split; [reflexivity|apply length_map].
  - intros Hd Hsheets. rewrite (Hprop Hd).
    destruct Hsheets as [-> | ->]; reflexivity.
  - intros pre post Hd Hsheets Hpre.
    rewrite (Hprop Hd), Hsheets, (mapAttempt_sheetSummary_null pre post Hpre).
    reflexivity.
  - intros ->. reflexivity.
Qed.

(** A 200 reply whose body parses to an object with two sheets. *)
Lemma listSheets_summarises_each_sheet_witness :
  GoogleSheetsClient.listSheets "abc"
    (mkWorld 1000 2000 (Done "jwt") (fun _ => true)
       (fun _ => TokenResponse 200 "{}" (BodyObject (Some "t") (Some 3600)))
       (fun _ => HttpResponse 200 "body")
       (fun _ => Some (JObject
          [("sheets",
            JArray [JObject [("properties",
                              JObject [("title", JString "Sheet1");
                                       ("sheetId", JNumber 0)])];
                    JObject []])])))
    (clientWith None None) []
  = (Resolved (succeeded (JArray
       [JObject [("title", JString "Sheet1"); ("sheetId", JNumber 0);
                 ("index", JUndefined); ("rowCount", JUndefined);
                 ("columnCount", JUndefined)];
        JObject [("title", JUndefined); ("sheetId", JUndefined);
                 ("index", JUndefined); ("rowCount", JUndefined);
                 ("columnCount", JUndefined)]])),
     clientWith (Some "t") (Some 3602000),
     [TokenExchange "https://oauth2.googleapis.com/token"
        (GoogleSheetsClient.tokenPostData "jwt");
      ApiCall (mkRequest "GET" "https://sheets.googleapis.com/v4/spreadsheets/abc"
                 "Bearer t" None)]).
Proof.
  refine (proj1 (proj1 (listSheets_summarises_each_sheet "abc" _ _ _ _ _ _ _)
                   [JObject [("properties",
                              JObject [("title", JString "Sheet1");
                                       ("sheetId", JNumber 0)])];
                    JObject []] _ _ _)).
  - vm_compute. reflexivity.
  - exact I.
  - reflexivity.
  - repeat constructor.
Defined.

(** X: the handler getSheetByGid compares numbers. When listSheets succeeds
    with an array of summaries, the handler succeeds with the first summary
    whose sheetId is the number gid, so the data it returns has that sheetId;
    when no summary has it (a sheetId that is a string of the same digits does
    not count), it resolves with the failure "Sheet with gid <gid> not found";
    in neither case does it throw or send anything more. *)
Theorem handler_getSheetByGid_compares_numbers :
  forall (args : handlerArgs) (id : string) (g : Z) (w : World)
         (st st' : clientState) (log log' : list netEvent) (l : list jsValue),
    arg_spreadsheet_id args = Some id -> id <> "" ->
    arg_gid args = Some g ->
    GoogleSheetsClient.listSheets id w st log
      = (Resolved (succeeded (JArray l)), st', log') ->
    Forall isObject l ->
    ((forall s, In s l -> optProp s "sheetId" <> JNumber g) ->
     sheetHandlers.getSheetByGid args w st log
     = (Resolved (failed ("Sheet with gid " ++ JS.numberToString g ++ " not found")),
        st', log'))
    /\ (forall s,
          In s l -> optProp s "sheetId" = JNumber g ->
          exists s0 pre post,
            sheetHandlers.getSheetByGid args w st log
            = (Resolved (succeeded s0), st', log')
            /\ optProp s0 "sheetId" = JNumber g
            /\ l = (pre ++ s0 :: post)%list
            /\ forall y, In y pre -> optProp y "sheetId" <> JNumber g)
    /\ (forall digits, hasSheetId g (JObject [("sheetId", JString digits)]) = false).
Proof.
  intros args id g w st st' log log' l Hid Hne Hgid Hlist Hobj.
  assert (Hspec : forall s, hasSheetId g s = true <-> optProp s "sheetId" = JNumber g).
  { intros s. unfold hasSheetId. destruct (optProp s "sheetId"); try (split; discriminate).
    rewrite Z.eqb_eq. split; congruence. }
  assert (Hrun : sheetHandlers.getSheetByGid args w st log =
                 match List.find (hasSheetId g) l with
                 | None => (Resolved (failed ("Sheet with gid "
                                              ++ JS.numberToString g ++ " not found")),
                            st', log')
                 | Some sheet => (Resolved (succeeded sheet), st', log')
                 end).
  { unfold sheetHandlers.getSheetByGid. rewrite Hid, Hgid.
    destruct id; [contradiction|]. cbn [JS.truthy negb].
    rewrite Hlist. cbn [success succeeded negb data].
    rewrite (findSheet_find g l Hobj). destruct (List.find _ l); reflexivity. }
  rewrite Hrun. split; [|split].
  - intros Hnone. rewrite find_is_none; [reflexivity|].
    intros x Hx. destruct (hasSheetId g x) eqn:E; [|reflexivity].
    apply Hspec in E. now apply Hnone in Hx.
  - intros s Hin Hs.
    destruct (find_is_some _ _ s Hin (proj2 (Hspec s) Hs)) as [s0 Hs0].
    destruct (find_first _ _ _ Hs0) as (Hg & pre & post & Hl & Hpre).
    exists s0, pre, post. rewrite Hs0.
    split; [reflexivity|]. split; [now apply Hspec|]. split; [exact Hl|].
    intros y Hy Habs. apply Hspec in Habs. rewrite (Hpre y Hy) in Habs.
    discriminate.
  - reflexivity.
Qed.

(** The theorem on a spreadsheet whose only sheet has the id 0, asked for
    the gid 999999999. *)
Lemma handler_getSheetByGid_compares_numbers_witness :
  sheetHandlers.getSheetByGid
    (mkHandlerArgs (Some "abc") None None None None None None None (Some 999999999))
    (mkWorld 1000 2000 (Done "jwt") (fun _ => true)
       (fun _ => TokenResponse 200 "{}" (BodyObject (Some "t") (Some 3600)))
       (fun _ => HttpResponse 200 "body")
       (fun _ => Some (JObject
          [("sheets",
            JArray [JObject [("properties",
                              JObject [("title", JString "Sheet1");
                                       ("sheetId", JNumber 0)])]])])))
    (clientWith None None) []
  = (Resolved (failed "Sheet with gid 999999999 not found"),
     clientWith (Some "t") (Some 3602000),
     [TokenExchange "https://oauth2.googleapis.com/token"
        (GoogleSheetsClient.tokenPostData "jwt");
      ApiCall (mkRequest "GET" "https://sheets.googleapis.com/v4/spreadsheets/abc"
                 "Bearer t" None)]).
Proof.
  refine (proj1 (handler_getSheetByGid_compares_numbers
                   (mkHandlerArgs (Some "abc") None None None None None None None
                      (Some 999999999))
                   "abc" 999999999 _ _ _ _ _
                   [JObject [("title", JString "Sheet1"); ("sheetId", JNumber 0);
                             ("index", JUndefined); ("rowCount", JUndefined);
                             ("columnCount", JUndefined)]]
                   eq_refl _ eq_refl _ _) _).
  - discriminate.
  - vm_compute. reflexivity.
  - repeat constructor.
  - intros s [<-|[]]. vm_compute. discriminate.
Defined.
